(** * Real-time connection and session-state manager (socket server)

    Shallow embedding of the socket module of the messaging backend
    ([initializeSocket] and its exported helpers, second revision of the
    socket file).  The process-wide registries [channelUsers], [dmUsers],
    [userSockets] and [activeCalls] are JavaScript [Map]s; they are modelled
    as association lists in insertion order, which is the iteration order of
    a JS [Map] and [Set].  The socket.io server is modelled by its list of
    live connections, each with the transport rooms it has joined; every
    outbound emission is recorded as one delivery to one connection.

    The persistence collaborator (Sequelize models [User], [ChannelMember],
    [DirectMessageMember], [Message]) is modelled as a database record that
    is part of the state; its calls are taken not to fail, so the
    [try]/[catch] branches that only log are not reachable in the model. *)

From Stdlib Require Import String Ascii List Bool ZArith Lia DecimalString Permutation.
Import ListNotations.
Set Warnings "-register-all".
Open Scope string_scope.
Open Scope list_scope.

(** ** JSON-like payload values *)

Inductive Value : Type :=
| VUndef
| VNull
| VBool (b : bool)
| VNum (z : Z)
| VStr (s : string)
| VObj (fields : list (string * Value)).

(** [obj.key]: the first field with that key, [undefined] when absent. *)
Fixpoint obj_get (k : string) (fs : list (string * Value)) : Value :=
  match fs with
  | [] => VUndef
  | (k', v) :: fs' => if String.eqb k k' then v else obj_get k fs'
  end.

(** [{ ...obj, key: v }]: an existing key keeps its place and takes the new
    value, a new key is appended. *)
Definition obj_set (k : string) (v : Value) (fs : list (string * Value))
  : list (string * Value) :=
  if existsb (fun '(k', _) => String.eqb k k') fs
  then map (fun '(k', v') => if String.eqb k k' then (k', v) else (k', v')) fs
  else fs ++ [(k, v)].

(** ** JavaScript [Map] and [Set] *)

Module JSMap.
Section Ops.
Context {V : Type}.

Fixpoint get (k : string) (m : list (string * V)) : option V :=
  match m with
  | [] => None
  | (k', v) :: m' => if String.eqb k k' then Some v else get k m'
  end.

Definition has (k : string) (m : list (string * V)) : bool :=
  match get k m with Some _ => true | None => false end.

(** [map.set(k, v)]: in place when the key exists, appended otherwise. *)
Definition set (k : string) (v : V) (m : list (string * V))
  : list (string * V) :=
  if has k m
  then map (fun '(k', v') => if String.eqb k k' then (k', v) else (k', v')) m
  else m ++ [(k, v)].

Definition delete (k : string) (m : list (string * V)) : list (string * V) :=
  filter (fun '(k', _) => negb (String.eqb k k')) m.
End Ops.
End JSMap.

Module JSSet.
Definition has (x : string) (s : list string) : bool :=
  existsb (String.eqb x) s.
Definition add (x : string) (s : list string) : list string :=
  if has x s then s else s ++ [x].
Definition delete (x : string) (s : list string) : list string :=
  filter (fun y => negb (String.eqb x y)) s.
End JSSet.

(** JavaScript truthiness of a [Map.get] result holding a socket id. *)
Definition truthy (o : option string) : bool :=
  match o with
  | Some s => negb (String.eqb s "")
  | None => false
  end.

(** ** Persistence collaborator *)

Inductive Status := Sent | Delivered | Read.

Definition status_eqb (a b : Status) : bool :=
  match a, b with
  | Sent, Sent | Delivered, Delivered | Read, Read => true
  | _, _ => false
  end.

Record Message := mkMessage {
  m_id : string;
  m_senderId : string;
  m_channelId : option string;
  m_dmId : option string;
  m_status : Status;
  m_isDeleted : bool;
  m_deliveredAt : option Z;
  m_readAt : option Z
}.

(** A row of [ChannelMember] or [DirectMessageMember]. *)
Record Member := mkMember {
  mb_roomId : string;
  mb_userId : string;
  mb_lastReadAt : option Z
}.

Record UserRow := mkUserRow {
  u_id : string;
  u_isOnline : bool;
  u_lastActive : Z
}.

Record DB := mkDB {
  db_users : list UserRow;
  db_channelMembers : list Member;
  db_dmMembers : list Member;
  db_messages : list Message
}.

(** ** Call sessions *)

Inductive CallType := Audio | Video.

Record Call := mkCall {
  callerId : string;
  receiverId : string;
  call_type : CallType;
  call_channelId : option string;
  startedAt : Z
}.

(** ** Transport *)

(** A live socket.io connection: its id, its authenticated user and the
    rooms it joined.  Every socket is also in the room named by its id. *)
Record Sock := mkSock {
  s_id : string;
  s_user : string;
  s_rooms : list string
}.

(** Room names of this server all contain a colon ([channel:], [dm:],
    [user:]); socket.io connection ids never do (they are base64url). *)
Fixpoint has_colon (s : string) : bool :=
  match s with
  | EmptyString => false
  | String a s' => Ascii.eqb a ":"%char || has_colon s'
  end.

Definition in_room (room : string) (s : Sock) : bool :=
  String.eqb (s_id s) room || existsb (String.eqb room) (s_rooms s).

(** One outbound event delivered to one connection. *)
Record Out := mkOut {
  o_to : string;
  o_event : string;
  o_data : Value
}.

Record State := mkState {
  sockets : list Sock;
  channelUsers : list (string * list string);
  dmUsers : list (string * list string);
  userSockets : list (string * string);
  activeCalls : list (string * Call);
  db : DB
}.

(** ** A state and output monad for the handlers *)

Definition M (A : Type) := State -> A * State * list Out.

Definition ret {A} (a : A) : M A := fun st => (a, st, []).

Definition bind {A B} (m : M A) (k : A -> M B) : M B :=
  fun st =>
    let '(a, st1, o1) := m st in
    let '(b, st2, o2) := k a st1 in
    (b, st2, o1 ++ o2).

Notation "x <- m ;; k" := (bind m (fun x => k))
  (at level 61, m at next level, right associativity).
Notation "m ;; k" := (bind m (fun _ => k))
  (at level 61, right associativity).

Definition get : M State := fun st => (st, st, []).
Definition modify (f : State -> State) : M unit := fun st => (tt, f st, []).
Definition out (os : list Out) : M unit := fun st => (tt, st, os).

Fixpoint forM_ {A} (xs : list A) (f : A -> M unit) : M unit :=
  match xs with
  | [] => ret tt
  | x :: xs' => f x ;; forM_ xs' f
  end.

Definition when (b : bool) (m : M unit) : M unit := if b then m else ret tt.

Definition run {A} (m : M A) (st : State) : State * list Out :=
  let '(_, st', o) := m st in (st', o).

(** Record updates. *)
Definition set_sockets (x : list Sock) (st : State) : State :=
  mkState x (channelUsers st) (dmUsers st) (userSockets st) (activeCalls st) (db st).
Definition set_channelUsers (x : list (string * list string)) (st : State) : State :=
  mkState (sockets st) x (dmUsers st) (userSockets st) (activeCalls st) (db st).
Definition set_dmUsers (x : list (string * list string)) (st : State) : State :=
  mkState (sockets st) (channelUsers st) x (userSockets st) (activeCalls st) (db st).
Definition set_userSockets (x : list (string * string)) (st : State) : State :=
  mkState (sockets st) (channelUsers st) (dmUsers st) x (activeCalls st) (db st).
Definition set_activeCalls (x : list (string * Call)) (st : State) : State :=
  mkState (sockets st) (channelUsers st) (dmUsers st) (userSockets st) x (db st).
Definition set_db (x : DB) (st : State) : State :=
  mkState (sockets st) (channelUsers st) (dmUsers st) (userSockets st) (activeCalls st) x.

(** ** socket.io emission *)

Definition deliver (ss : list Sock) (ev : string) (d : Value) : list Out :=
  map (fun s => mkOut (s_id s) ev d) ss.

(** [io.to(room).emit(ev, d)] *)
Definition io_to (room ev : string) (d : Value) : M unit :=
  st <- get ;; out (deliver (filter (in_room room) (sockets st)) ev d).

(** [socket.to(room).emit(ev, d)]: the room minus the emitting socket. *)
Definition socket_to (self room ev : string) (d : Value) : M unit :=
  st <- get ;;
  out (deliver (filter (fun s => in_room room s && negb (String.eqb (s_id s) self))
                  (sockets st)) ev d).

(** [socket.emit(ev, d)] *)
Definition socket_emit (self ev : string) (d : Value) : M unit :=
  out [mkOut self ev d].

(** [io.emit(ev, d)] *)
Definition io_emit (ev : string) (d : Value) : M unit :=
  st <- get ;; out (deliver (sockets st) ev d).

(** [socket.join(room)] / [socket.leave(room)] *)
Definition upd (self : string) (f : list string -> list string) (s : Sock) : Sock :=
  if String.eqb (s_id s) self then mkSock (s_id s) (s_user s) (f (s_rooms s)) else s.

Definition sock_update (self : string) (f : list string -> list string)
    (ss : list Sock) : list Sock :=
  map (upd self f) ss.

Definition socket_join (self room : string) : M unit :=
  modify (fun st => set_sockets (sock_update self (JSSet.add room) (sockets st)) st).

Definition socket_leave (self room : string) : M unit :=
  modify (fun st => set_sockets (sock_update self (JSSet.delete room) (sockets st)) st).

(** [`${n}`] for an integer (the millisecond clock in call identifiers). *)
Definition Z_to_string (z : Z) : string := NilZero.string_of_int (Z.to_int z).

(** [`${userId}-${receiverId}-${Date.now()}`] *)
Definition call_id (caller rcv : string) (now : Z) : string :=
  (caller ++ "-" ++ rcv ++ "-" ++ Z_to_string now)%string.

Definition str_of_opt (o : option string) : Value :=
  match o with Some s => VStr s | None => VUndef end.

Definition type_str (t : CallType) : Value :=
  match t with Audio => VStr "audio" | Video => VStr "video" end.

(** ** Call signaling handlers *)

Section Handlers.
(** The handlers close over the connection's socket id and user id. *)
Variable self : string.
Variable userId : string.

Definition lookup_socket (uid : string) : M (option string) :=
  st <- get ;; ret (JSMap.get uid (userSockets st)).

Definition lookup_call (callId : string) : M (option Call) :=
  st <- get ;; ret (JSMap.get callId (activeCalls st)).

Definition delete_call (callId : string) : M unit :=
  modify (fun st => set_activeCalls (JSMap.delete callId (activeCalls st)) st).

(** [io.to(userSockets.get(uid))] guarded by the truthiness test. *)
Definition emit_to_user (uid ev : string) (d : Value) : M unit :=
  sid <- lookup_socket uid ;;
  match sid with
  | Some s => when (truthy sid) (io_to s ev d)
  | None => ret tt
  end.

Definition other_party (call : Call) : string :=
  if String.eqb (callerId call) userId then receiverId call else callerId call.

Definition on_call_initiate (rcv : string) (type : CallType)
    (channelId : option string) (now : Z) : M unit :=
  let callId := call_id userId rcv now in
  modify (fun st => set_activeCalls
    (JSMap.set callId (mkCall userId rcv type channelId now) (activeCalls st)) st) ;;
  rsid <- lookup_socket rcv ;;
  (if truthy rsid
   then emit_to_user rcv "call_incoming"
          (VObj [("callId", VStr callId); ("callerId", VStr userId);
                 ("type", type_str type); ("channelId", str_of_opt channelId)])
   else socket_emit self "call_failed"
          (VObj [("callId", VStr callId); ("reason", VStr "User is offline")]) ;;
        delete_call callId) ;;
  socket_emit self "call_initiated"
    (VObj [("callId", VStr callId); ("receiverId", VStr rcv); ("type", type_str type)]).

Definition on_call_accept (callId : string) : M unit :=
  call <- lookup_call callId ;;
  match call with
  | None => socket_emit self "error" (VObj [("message", VStr "Call not found")])
  | Some c =>
      emit_to_user (callerId c) "call_accepted"
        (VObj [("callId", VStr callId); ("acceptedBy", VStr userId)])
  end.

(** [reason || 'Call declined'] *)
Definition reason_or_default (reason : option string) : string :=
  match reason with
  | Some r => if String.eqb r "" then "Call declined" else r
  | None => "Call declined"
  end.

Definition on_call_reject (callId : string) (reason : option string) : M unit :=
  call <- lookup_call callId ;;
  match call with
  | None => ret tt
  | Some c =>
      emit_to_user (callerId c) "call_rejected"
        (VObj [("callId", VStr callId); ("rejectedBy", VStr userId);
               ("reason", VStr (reason_or_default reason))]) ;;
      delete_call callId
  end.

Definition on_call_end (callId : string) : M unit :=
  call <- lookup_call callId ;;
  match call with
  | None => ret tt
  | Some c =>
      emit_to_user (other_party c) "call_ended"
        (VObj [("callId", VStr callId); ("endedBy", VStr userId)]) ;;
      delete_call callId
  end.

Definition on_call_offer (callId : string) (offer : Value) : M unit :=
  call <- lookup_call callId ;;
  match call with
  | None => ret tt
  | Some c =>
      emit_to_user (receiverId c) "call_offer"
        (VObj [("callId", VStr callId); ("offer", offer); ("callerId", VStr userId)])
  end.

Definition on_call_answer (callId : string) (answer : Value) : M unit :=
  call <- lookup_call callId ;;
  match call with
  | None => ret tt
  | Some c =>
      emit_to_user (callerId c) "call_answer"
        (VObj [("callId", VStr callId); ("answer", answer); ("answererId", VStr userId)])
  end.

Definition on_ice_candidate (callId : string) (candidate : Value) : M unit :=
  call <- lookup_call callId ;;
  match call with
  | None => ret tt
  | Some c =>
      emit_to_user (other_party c) "ice_candidate"
        (VObj [("callId", VStr callId); ("candidate", candidate); ("from", VStr userId)])
  end.

Definition on_call_toggle_media (callId : string) (mediaType : CallType)
    (enabled : bool) : M unit :=
  call <- lookup_call callId ;;
  match call with
  | None => ret tt
  | Some c =>
      emit_to_user (other_party c) "call_media_toggled"
        (VObj [("callId", VStr callId); ("userId", VStr userId);
               ("mediaType", type_str mediaType); ("enabled", VBool enabled)])
  end.

(** ** Room handlers *)

Definition channel_room (channelId : string) : string := ("channel:" ++ channelId)%string.
Definition dm_room (dmId : string) : string := ("dm:" ++ dmId)%string.
Definition user_room (uid : string) : string := ("user:" ++ uid)%string.

(** [ChannelMember.findOne({ where: { channelId, userId } })] and its DM twin. *)
Definition find_member (rows : list Member) (roomId uid : string) : bool :=
  existsb (fun r => String.eqb (mb_roomId r) roomId && String.eqb (mb_userId r) uid) rows.

(** [if (!m.has(id)) m.set(id, new Set()); m.get(id)!.add(userId)] *)
Definition track (roomId : string) (m : list (string * list string))
  : list (string * list string) :=
  let users := match JSMap.get roomId m with Some u => u | None => [] end in
  JSMap.set roomId (JSSet.add userId users) m.

(** [m.get(id)?.delete(userId)] *)
Definition untrack (roomId : string) (m : list (string * list string))
  : list (string * list string) :=
  match JSMap.get roomId m with
  | Some users => JSMap.set roomId (JSSet.delete userId users) m
  | None => m
  end.

Definition on_join_channel (channelId : string) : M unit :=
  st <- get ;;
  if negb (find_member (db_channelMembers (db st)) channelId userId)
  then socket_emit self "error" (VObj [("message", VStr "Not a member of this channel")])
  else
    socket_join self (channel_room channelId) ;;
    modify (fun st => set_channelUsers (track channelId (channelUsers st)) st) ;;
    socket_to self (channel_room channelId) "user_joined"
      (VObj [("channelId", VStr channelId); ("userId", VStr userId)]) ;;
    socket_emit self "joined_channel" (VObj [("channelId", VStr channelId)]).

Definition on_leave_channel (channelId : string) : M unit :=
  socket_leave self (channel_room channelId) ;;
  modify (fun st => set_channelUsers (untrack channelId (channelUsers st)) st) ;;
  socket_to self (channel_room channelId) "user_left"
    (VObj [("channelId", VStr channelId); ("userId", VStr userId)]).

Definition on_join_dm (dmId : string) : M unit :=
  st <- get ;;
  if negb (find_member (db_dmMembers (db st)) dmId userId)
  then socket_emit self "error" (VObj [("message", VStr "Not a member of this DM")])
  else
    socket_join self (dm_room dmId) ;;
    modify (fun st => set_dmUsers (track dmId (dmUsers st)) st) ;;
    socket_emit self "joined_dm" (VObj [("dmId", VStr dmId)]).

Definition on_leave_dm (dmId : string) : M unit :=
  socket_leave self (dm_room dmId) ;;
  modify (fun st => set_dmUsers (untrack dmId (dmUsers st)) st).

(** ** Message relay *)

Definition on_new_message (channelId : string) (message : list (string * Value))
    (now : Z) : M unit :=
  socket_to self (channel_room channelId) "new_message"
    (VObj [("channelId", VStr channelId);
           ("message", VObj (obj_set "status" (VStr "sent") message))]) ;;
  st <- get ;;
  match JSMap.get channelId (channelUsers st) with
  | None => ret tt
  | Some onlineMembers =>
      forM_ onlineMembers (fun memberId =>
        when (negb (String.eqb memberId userId))
          (emit_to_user memberId "message_status_update"
             (VObj [("messageId", obj_get "id" message); ("channelId", VStr channelId);
                    ("status", VStr "delivered"); ("deliveredAt", VNum now)]))) ;;
      socket_emit self "message_status_update"
        (VObj [("messageId", obj_get "id" message); ("channelId", VStr channelId);
               ("status", VStr "delivered"); ("deliveredAt", VNum now)])
  end.

Definition on_new_dm_message (dmId : string) (message : list (string * Value))
    (now : Z) : M unit :=
  socket_to self (dm_room dmId) "new_dm_message"
    (VObj [("dmId", VStr dmId);
           ("message", VObj (obj_set "status" (VStr "sent") message))]) ;;
  st <- get ;;
  match JSMap.get dmId (dmUsers st) with
  | None => ret tt
  | Some onlineDmMembers =>
      forM_ onlineDmMembers (fun memberId =>
        when (negb (String.eqb memberId userId))
          (emit_to_user memberId "dm_message_status_update"
             (VObj [("messageId", obj_get "id" message); ("dmId", VStr dmId);
                    ("status", VStr "delivered"); ("deliveredAt", VNum now)]))) ;;
      socket_emit self "dm_message_status_update"
        (VObj [("messageId", obj_get "id" message); ("dmId", VStr dmId);
               ("status", VStr "delivered"); ("deliveredAt", VNum now)]) ;;
      forM_ onlineDmMembers (fun memberId =>
        when (negb (String.eqb memberId userId))
          (io_to (user_room memberId) "unread_update"
             (VObj [("type", VStr "dm"); ("dmId", VStr dmId); ("senderId", VStr userId)])))
  end.

(** Pure relays: typing, edit, delete and reaction events. *)
Definition on_relay (room ev : string) (d : Value) : M unit :=
  socket_to self room ev d.

(** ** Bulk delivery and read acknowledgements *)

Definition modify_messages (f : Message -> Message) : M unit :=
  modify (fun st => let d := db st in
    set_db (mkDB (db_users d) (db_channelMembers d) (db_dmMembers d)
                 (map f (db_messages d))) st).

Definition in_ids (ids : list string) (m : Message) : bool :=
  existsb (String.eqb (m_id m)) ids.

(** [Message.update({ status: 'delivered', deliveredAt: now },
      { where: { id: { [Op.in]: ids }, status: 'sent' } })] *)
Definition mark_delivered (ids : list string) (now : Z) (m : Message) : Message :=
  if in_ids ids m && status_eqb (m_status m) Sent
  then mkMessage (m_id m) (m_senderId m) (m_channelId m) (m_dmId m) Delivered
                 (m_isDeleted m) (Some now) (m_readAt m)
  else m.

(** [Message.update({ status: 'read', readAt: now, deliveredAt: now },
      { where: { id: { [Op.in]: ids }, status: { [Op.ne]: 'read' } } })] *)
Definition mark_read (ids : list string) (now : Z) (m : Message) : Message :=
  if in_ids ids m && negb (status_eqb (m_status m) Read)
  then mkMessage (m_id m) (m_senderId m) (m_channelId m) (m_dmId m) Read
                 (m_isDeleted m) (Some now) (Some now)
  else m.

(** [ChannelMember.update({ lastReadAt: now }, { where: { roomId, userId } })] *)
Definition touch_last_read (roomId : string) (now : Z) (rows : list Member) : list Member :=
  map (fun r => if String.eqb (mb_roomId r) roomId && String.eqb (mb_userId r) userId
                then mkMember (mb_roomId r) (mb_userId r) (Some now) else r) rows.

(** [Message.findAll({ where: { id: { [Op.in]: ids } } })] and the loop that
    notifies each message's sender at its registered socket. *)
Definition notify_senders (ids : list string) (ev : string)
    (payload : Message -> Value) : M unit :=
  st <- get ;;
  forM_ (filter (in_ids ids) (db_messages (db st))) (fun msg =>
    emit_to_user (m_senderId msg) ev (payload msg)).

Definition on_messages_delivered (channelId : string) (ids : list string) (now : Z)
  : M unit :=
  modify_messages (mark_delivered ids now) ;;
  notify_senders ids "message_status_update" (fun msg =>
    VObj [("messageId", VStr (m_id msg)); ("channelId", VStr channelId);
          ("status", VStr "delivered"); ("deliveredAt", VNum now)]).

Definition on_messages_read (channelId : string) (ids : list string) (now : Z)
  : M unit :=
  modify_messages (mark_read ids now) ;;
  modify (fun st => let d := db st in
    set_db (mkDB (db_users d) (touch_last_read channelId now (db_channelMembers d))
                 (db_dmMembers d) (db_messages d)) st) ;;
  notify_senders ids "message_status_update" (fun msg =>
    VObj [("messageId", VStr (m_id msg)); ("channelId", VStr channelId);
          ("status", VStr "read"); ("readAt", VNum now)]).

Definition on_dm_messages_delivered (dmId : string) (ids : list string) (now : Z)
  : M unit :=
  modify_messages (mark_delivered ids now) ;;
  notify_senders ids "dm_message_status_update" (fun msg =>
    VObj [("messageId", VStr (m_id msg)); ("dmId", VStr dmId);
          ("status", VStr "delivered"); ("deliveredAt", VNum now)]).

Definition on_dm_messages_read (dmId : string) (ids : list string) (now : Z)
  : M unit :=
  modify_messages (mark_read ids now) ;;
  modify (fun st => let d := db st in
    set_db (mkDB (db_users d) (db_channelMembers d)
                 (touch_last_read dmId now (db_dmMembers d)) (db_messages d)) st) ;;
  notify_senders ids "dm_message_status_update" (fun msg =>
    VObj [("messageId", VStr (m_id msg)); ("dmId", VStr dmId);
          ("status", VStr "read"); ("readAt", VNum now)]).

(** ** Connection and disconnection *)

(** [User.update({ isOnline, lastActive: now }, { where: { id: userId } })] *)
Definition set_online (b : bool) (now : Z) : M unit :=
  modify (fun st => let d := db st in
    set_db (mkDB (map (fun u => if String.eqb (u_id u) userId
                                then mkUserRow (u_id u) b now else u) (db_users d))
                 (db_channelMembers d) (db_dmMembers d) (db_messages d)) st).

Definition opt_in (o : option string) (ids : list string) : bool :=
  match o with Some x => existsb (String.eqb x) ids | None => false end.

(** The messages of the given rooms, sent by someone else, still [sent]
    and not deleted ([Message.findAll] of the connection handler). *)
Definition undelivered (room : Message -> option string) (roomIds : list string)
    (msgs : list Message) : list Message :=
  filter (fun m => opt_in (room m) roomIds && negb (String.eqb (m_senderId m) userId)
                   && status_eqb (m_status m) Sent && negb (m_isDeleted m)) msgs.

Definition deliver_pending (rows : DB -> list Member) (room : Message -> option string)
    (ev key : string) (now : Z) : M unit :=
  st <- get ;;
  let roomIds := map mb_roomId (filter (fun r => String.eqb (mb_userId r) userId)
                                       (rows (db st))) in
  when (negb (Nat.eqb (length roomIds) 0)) (
    let pending := undelivered room roomIds (db_messages (db st)) in
    when (negb (Nat.eqb (length pending) 0)) (
      modify_messages (mark_delivered (map m_id pending) now) ;;
      forM_ pending (fun msg =>
        emit_to_user (m_senderId msg) ev
          (VObj [("messageId", VStr (m_id msg)); (key, str_of_opt (room msg));
                 ("status", VStr "delivered"); ("deliveredAt", VNum now)])))).

(** [io.on('connection', ...)]: the new socket is already in the server's
    namespace when the handler runs. *)
Definition on_connect (now : Z) : M unit :=
  modify (fun st => set_sockets (sockets st ++ [mkSock self userId []]) st) ;;
  modify (fun st => set_userSockets (JSMap.set userId self (userSockets st)) st) ;;
  socket_join self (user_room userId) ;;
  set_online true now ;;
  io_emit "user_presence"
    (VObj [("userId", VStr userId); ("status", VStr "online"); ("lastActive", VNum now)]) ;;
  deliver_pending db_channelMembers m_channelId "message_status_update" "channelId" now ;;
  deliver_pending db_dmMembers m_dmId "dm_message_status_update" "dmId" now.

(** [channelUsers.forEach]: each Set is mutated in place, and [user_left]
    is emitted for every channel whose live set held the user. *)
Fixpoint leave_channels (es : list (string * list string))
  : M (list (string * list string)) :=
  match es with
  | [] => ret []
  | (channelId, users) :: es' =>
      (if JSSet.has userId users
       then io_to (channel_room channelId) "user_left"
              (VObj [("channelId", VStr channelId); ("userId", VStr userId)])
       else ret tt) ;;
      rest <- leave_channels es' ;;
      ret ((channelId, if JSSet.has userId users then JSSet.delete userId users else users)
           :: rest)
  end.

(** [for (const [callId, call] of activeCalls.entries())]: the sessions
    involving the user are ended and deleted, the others are kept. *)
Fixpoint end_calls (es : list (string * Call)) : M (list (string * Call)) :=
  match es with
  | [] => ret []
  | (callId, call) :: es' =>
      if String.eqb (callerId call) userId || String.eqb (receiverId call) userId
      then
        emit_to_user (other_party call) "call_ended"
          (VObj [("callId", VStr callId); ("endedBy", VStr userId);
                 ("reason", VStr "disconnected")]) ;;
        end_calls es'
      else
        rest <- end_calls es' ;;
        ret ((callId, call) :: rest)
  end.

(** [socket.on('disconnect', ...)]: socket.io has already removed the
    socket from the namespace and from all its rooms. *)
Definition on_disconnect (now : Z) : M unit :=
  modify (fun st => set_sockets (filter (fun s => negb (String.eqb (s_id s) self))
                                        (sockets st)) st) ;;
  modify (fun st => set_userSockets (JSMap.delete userId (userSockets st)) st) ;;
  set_online false now ;;
  st <- get ;;
  cu <- leave_channels (channelUsers st) ;;
  modify (set_channelUsers cu) ;;
  modify (fun st => set_dmUsers
    (map (fun '(dmId, users) => (dmId, JSSet.delete userId users)) (dmUsers st)) st) ;;
  st <- get ;;
  calls <- end_calls (activeCalls st) ;;
  modify (set_activeCalls calls) ;;
  io_emit "user_presence"
    (VObj [("userId", VStr userId); ("status", VStr "offline"); ("lastActive", VNum now)]).
End Handlers.

(** [isUserOnline] *)
Definition isUserOnline (st : State) (uid : string) : bool :=
  JSMap.has uid (userSockets st).

(** [getOnlineChannelUsers] / [getOnlineDmUsers] *)
Definition getOnlineChannelUsers (st : State) (channelId : string) : list string :=
  match JSMap.get channelId (channelUsers st) with Some u => u | None => [] end.
Definition getOnlineDmUsers (st : State) (dmId : string) : list string :=
  match JSMap.get dmId (dmUsers st) with Some u => u | None => [] end.

(** ** Inbound events and the server's step relation *)

Inductive Event :=
| EJoinChannel (channelId : string)
| ELeaveChannel (channelId : string)
| EJoinDm (dmId : string)
| ELeaveDm (dmId : string)
| ETyping (channelId : string) (isTyping : bool)
| EDmTyping (dmId : string) (isTyping : bool)
| ENewMessage (channelId : string) (message : list (string * Value))
| EMessageEdited (channelId messageId text : string)
| EMessageDeleted (channelId messageId : string)
| ENewDmMessage (dmId : string) (message : list (string * Value))
| EDmMessageEdited (dmId messageId text : string)
| EDmMessageDeleted (dmId messageId : string)
| EReactionUpdate (channelId messageId emoji action : string)
| EDmReactionUpdate (dmId messageId emoji action : string)
| EMessagesDelivered (channelId : string) (messageIds : list string)
| EMessagesRead (channelId : string) (messageIds : list string)
| EDmMessagesDelivered (dmId : string) (messageIds : list string)
| EDmMessagesRead (dmId : string) (messageIds : list string)
| ECallInitiate (rcv : string) (type : CallType) (channelId : option string)
| ECallAccept (callId : string)
| ECallReject (callId : string) (reason : option string)
| ECallEnd (callId : string)
| ECallOffer (callId : string) (offer : Value)
| ECallAnswer (callId : string) (answer : Value)
| EIceCandidate (callId : string) (candidate : Value)
| ECallToggleMedia (callId : string) (mediaType : CallType) (enabled : bool).

(** [socket.on(name, handler)] for the connection [self] of [userId]. *)
Definition handle (self userId : string) (now : Z) (e : Event) : M unit :=
  match e with
  | EJoinChannel c => on_join_channel self userId c
  | ELeaveChannel c => on_leave_channel self userId c
  | EJoinDm d => on_join_dm self userId d
  | ELeaveDm d => on_leave_dm self userId d
  | ETyping c t => on_relay self (channel_room c) "typing"
      (VObj [("channelId", VStr c); ("userId", VStr userId); ("isTyping", VBool t)])
  | EDmTyping d t => on_relay self (dm_room d) "dm_typing"
      (VObj [("dmId", VStr d); ("userId", VStr userId); ("isTyping", VBool t)])
  | ENewMessage c m => on_new_message self userId c m now
  | EMessageEdited c mid t => on_relay self (channel_room c) "message_edited"
      (VObj [("channelId", VStr c); ("messageId", VStr mid); ("text", VStr t)])
  | EMessageDeleted c mid => on_relay self (channel_room c) "message_deleted"
      (VObj [("channelId", VStr c); ("messageId", VStr mid)])
  | ENewDmMessage d m => on_new_dm_message self userId d m now
  | EDmMessageEdited d mid t => on_relay self (dm_room d) "dm_message_edited"
      (VObj [("dmId", VStr d); ("messageId", VStr mid); ("text", VStr t)])
  | EDmMessageDeleted d mid => on_relay self (dm_room d) "dm_message_deleted"
      (VObj [("dmId", VStr d); ("messageId", VStr mid)])
  | EReactionUpdate c mid em a => on_relay self (channel_room c) "reaction_update"
      (VObj [("channelId", VStr c); ("messageId", VStr mid); ("userId", VStr userId);
             ("emoji", VStr em); ("action", VStr a)])
  | EDmReactionUpdate d mid em a => on_relay self (dm_room d) "dm_reaction_update"
      (VObj [("dmId", VStr d); ("messageId", VStr mid); ("userId", VStr userId);
             ("emoji", VStr em); ("action", VStr a)])
  | EMessagesDelivered c ids => on_messages_delivered c ids now
  | EMessagesRead c ids => on_messages_read userId c ids now
  | EDmMessagesDelivered d ids => on_dm_messages_delivered d ids now
  | EDmMessagesRead d ids => on_dm_messages_read userId d ids now
  | ECallInitiate r t c => on_call_initiate self userId r t c now
  | ECallAccept id => on_call_accept self userId id
  | ECallReject id r => on_call_reject userId id r
  | ECallEnd id => on_call_end userId id
  | ECallOffer id o => on_call_offer userId id o
  | ECallAnswer id a => on_call_answer userId id a
  | EIceCandidate id c => on_ice_candidate userId id c
  | ECallToggleMedia id t b => on_call_toggle_media userId id t b
  end.

(** The call identifier carried by the signaling events that are
    silently dropped when the session is unknown. *)
Definition signal_call_id (e : Event) : option string :=
  match e with
  | ECallReject id _ | ECallEnd id | ECallOffer id _ | ECallAnswer id _
  | EIceCandidate id _ | ECallToggleMedia id _ _ => Some id
  | _ => None
  end.

(** What can happen to the server: a connection is authenticated and opens,
    a live connection sends an event, or a live connection closes. *)
Inductive Act :=
| AConnect (sid uid : string)
| AEvent (sid : string) (e : Event)
| ADisconnect (sid : string).

Definition find_socket (sid : string) (ss : list Sock) : option Sock :=
  find (fun s => String.eqb (s_id s) sid) ss.

Definition act (a : Act) (now : Z) : M unit :=
  match a with
  | AConnect sid uid => on_connect sid uid now
  | AEvent sid e =>
      st <- get ;;
      match find_socket sid (sockets st) with
      | Some s => handle sid (s_user s) now e
      | None => ret tt
      end
  | ADisconnect sid =>
      st <- get ;;
      match find_socket sid (sockets st) with
      | Some s => on_disconnect sid (s_user s) now
      | None => ret tt
      end
  end.

(** socket.io gives every new connection a fresh, non-empty base64url id. *)
Definition fresh_ok (st : State) (a : Act) : bool :=
  match a with
  | AConnect sid _ =>
      negb (String.eqb sid "") && negb (existsb (fun s => String.eqb (s_id s) sid) (sockets st))
      && negb (has_colon sid)
  | _ => true
  end.

Definition init (d : DB) : State := mkState [] [] [] [] [] d.

Inductive reachable : State -> Prop :=
| reach_init d : reachable (init d)
| reach_step st a now :
    reachable st -> fresh_ok st a = true ->
    reachable (fst (run (act a now) st)).

(** Running a script of actions from a state (for concrete scenarios). *)
Fixpoint play (st : State) (acts : list (Act * Z)) : State * list Out :=
  match acts with
  | [] => (st, [])
  | (a, now) :: acts' =>
      let '(st1, o1) := run (act a now) st in
      let '(st2, o2) := play st1 acts' in
      (st2, o1 ++ o2)
  end.

(** Every connection of a script gets a fresh socket id. *)
Fixpoint play_ok (st : State) (acts : list (Act * Z)) : bool :=
  match acts with
  | [] => true
  | (a, now) :: acts' => fresh_ok st a && play_ok (fst (run (act a now) st)) acts'
  end.

(** The order of message states [sent -> delivered -> read]. *)
Definition status_rank (s : Status) : nat :=
  match s with Sent => 0 | Delivered => 1 | Read => 2 end.

(** Pointwise: same message ids, statuses never earlier. *)
Definition msgs_mono (l l' : list Message) : Prop :=
  Forall2 (fun m m' => m_id m = m_id m' /\ status_rank (m_status m) <= status_rank (m_status m'))
    l l'.

(** One status event per listed message, to its sender's registered
    connection when there is one. *)
Definition sender_notifications (us : list (string * string)) (ev : string)
    (payload : Message -> Value) (ms : list Message) : list Out :=
  flat_map (fun m => match JSMap.get (m_senderId m) us with
                     | Some h => [mkOut h ev (payload m)]
                     | None => [] end) ms.

(** One [delivered] update per live member other than [sender], at that
    member's registered connection when there is one. *)
Definition member_updates (us : list (string * string)) (sender ev : string) (d : Value)
    (members : list string) : list Out :=
  flat_map (fun v => if String.eqb v sender then []
                     else match JSMap.get v us with
                          | Some h => [mkOut h ev d]
                          | None => [] end) members.

(** The bulk acknowledgement events. *)
Definition status_act (a : Act) : bool :=
  match a with
  | AEvent _ (EMessagesDelivered _ _ | EMessagesRead _ _
             | EDmMessagesDelivered _ _ | EDmMessagesRead _ _) => true
  | _ => false
  end.

(** ** Concrete scenarios *)

(** Users A and B, both members of channel [general] and of DM [d1]. *)
Definition db0 : DB :=
  mkDB [mkUserRow "A" false 0; mkUserRow "B" false 0]
       [mkMember "general" "A" None; mkMember "general" "B" None]
       [mkMember "d1" "A" None; mkMember "d1" "B" None]
       [].

(** [db0] with two messages of B in [general]: [m1] still [sent], [m2]
    already [read]. *)
Definition db1 : DB :=
  mkDB (db_users db0) (db_channelMembers db0) (db_dmMembers db0)
       [mkMessage "m1" "B" (Some "general") None Sent false None None;
        mkMessage "m2" "B" (Some "general") None Read false (Some 3%Z) (Some 4%Z)].

(** A on [sa] and B on [sb], over [db1]. *)
Definition st_msgs : State :=
  fst (play (init db1) [(AConnect "sa" "A", 1%Z); (AConnect "sb" "B", 2%Z)]).

(** A is connected on socket [sa]; B is offline. *)
Definition st_A_only : State := fst (play (init db0) [(AConnect "sa" "A", 1%Z)]).

(** A on [sa] and B on [sb]. *)
Definition st_AB : State :=
  fst (play (init db0) [(AConnect "sa" "A", 1%Z); (AConnect "sb" "B", 2%Z)]).

(** A calls B (both online) at time 6; B then ends the call. *)
Definition st_call_ended : State :=
  fst (play st_AB [(AEvent "sa" (ECallInitiate "B" Audio None), 6%Z);
                   (AEvent "sb" (ECallEnd (call_id "A" "B" 6)), 7%Z)]).

(** A calls B (both online) at time 6; the session is ringing. *)
Definition st_ringing : State :=
  fst (play st_AB [(AEvent "sa" (ECallInitiate "B" Audio None), 6%Z)]).

(** A joins channel [general] and DM [d1]; B is connected but joined neither. *)
Definition st_joined : State :=
  fst (play st_AB [(AEvent "sa" (EJoinChannel "general"), 3%Z);
                   (AEvent "sa" (EJoinDm "d1"), 4%Z)]).

(** A and B are both in the live sets of [general] and [d1], and A has
    called B at time 7. *)
Definition st_all : State :=
  fst (play st_joined [(AEvent "sb" (EJoinChannel "general"), 5%Z);
                       (AEvent "sb" (EJoinDm "d1"), 6%Z);
                       (AEvent "sa" (ECallInitiate "B" Video None), 7%Z)]).

(** The room a pure relay event is forwarded to: typing indicators, edits,
    deletions and reactions. *)
Definition relay_room (e : Event) : option string :=
  match e with
  | ETyping c _ | EMessageEdited c _ _ | EMessageDeleted c _ | EReactionUpdate c _ _ _ =>
      Some (channel_room c)
  | EDmTyping d _ | EDmMessageEdited d _ _ | EDmMessageDeleted d _ | EDmReactionUpdate d _ _ _ =>
      Some (dm_room d)
  | _ => None
  end.

(** [broadcastToChannel], [broadcastToDm] and [broadcastToUser]. *)
Definition broadcastToChannel (channelId ev : string) (d : Value) : M unit :=
  io_to (channel_room channelId) ev d.
Definition broadcastToDm (dmId ev : string) (d : Value) : M unit :=
  io_to (dm_room dmId) ev d.
Definition broadcastToUser (userId ev : string) (d : Value) : M unit :=
  io_to (user_room userId) ev d.

(** ** Vocabulary of the proofs *)

Definition state_of {A} (m : M A) (st : State) : State := snd (fst (m st)).
Definition outs_of {A} (m : M A) (st : State) : list Out := snd (m st).
Definition val_of {A} (m : M A) (st : State) : A := fst (fst (m st)).

(** Computations that only read the state and emit. *)
Definition ro {A} (m : M A) : Prop := forall st, state_of m st = st.

(** The transport and the three live registries; the call table and the
    database are left out. *)
Definition regs (st : State) :=
  (sockets st, channelUsers st, dmUsers st, userSockets st).

Definition keeps {A} (m : M A) : Prop := forall st, regs (state_of m st) = regs st.

(** Events that do not join or leave a room. *)
Definition room_event (e : Event) : bool :=
  match e with
  | EJoinChannel _ | ELeaveChannel _ | EJoinDm _ | ELeaveDm _ => true
  | _ => false
  end.

(** The live sets after [leave_channels]: the user is removed from each. *)
Definition strip (uid : string) (es : list (string * list string)) :=
  map (fun '(c, us) => (c, if JSSet.has uid us then JSSet.delete uid us else us)) es.

(** The call table after [end_calls]: the sessions of the user are gone. *)
Definition involves (uid : string) (c : Call) : bool :=
  String.eqb (callerId c) uid || String.eqb (receiverId c) uid.

Definition strip_dms (uid : string) (es : list (string * list string)) :=
  map (fun '(d, us) => (d, JSSet.delete uid us)) es.

(** Every member of a live set has a connection subscribed to the room. *)
Definition live_ok (room : string -> string) (m : list (string * list string))
    (ss : list Sock) : Prop :=
  forall r users v, In (r, users) m -> In v users ->
    exists s, In s ss /\ s_user s = v /\ in_room (room r) s = true.

Record WF (ss : list Sock) (cu du : list (string * list string))
    (us : list (string * string)) : Prop := {
  wf_nodup : NoDup (map s_id ss);
  wf_nonempty : forall s, In s ss -> s_id s <> "";
  wf_ids : forall s, In s ss -> has_colon (s_id s) = false;
  wf_rooms : forall s r, In s ss -> In r (s_rooms s) -> has_colon r = true;
  wf_registered : forall u h, In (u, h) us ->
    exists s, In s ss /\ s_id s = h /\ s_user s = u;
  wf_channels : live_ok channel_room cu ss;
  wf_dms : live_ok dm_room du ss
}.

Definition wf (st : State) : Prop :=
  WF (sockets st) (channelUsers st) (dmUsers st) (userSockets st).

(** Every live connection sits in its own user's room and in no other
    user's room. *)
Definition user_rooms_ok (ss : list Sock) : Prop :=
  forall s u, In s ss -> (In (user_room u) (s_rooms s) <-> u = s_user s).

(** * Proofs *)

(** ** The monad *)

Lemma state_of_bind {A B} (m : M A) (k : A -> M B) st :
  state_of (bind m k) st = state_of (k (val_of m st)) (state_of m st).
Proof.
  unfold state_of, val_of, bind.
  destruct (m st) as [[a st1] o1]; simpl. destruct (k a st1) as [[b st2] o2]; reflexivity.
Qed.

Lemma outs_of_bind {A B} (m : M A) (k : A -> M B) st :
  outs_of (bind m k) st = outs_of m st ++ outs_of (k (val_of m st)) (state_of m st).
Proof.
  unfold outs_of, state_of, val_of, bind.
  destruct (m st) as [[a st1] o1]; simpl. destruct (k a st1) as [[b st2] o2]; reflexivity.
Qed.

Lemma run_state_outs {A} (m : M A) st : run m st = (state_of m st, outs_of m st).
Proof. unfold run, state_of, outs_of. destruct (m st) as [[a st1] o1]; reflexivity. Qed.

Lemma ro_bind {A B} (m : M A) (k : A -> M B) :
  ro m -> (forall a, ro (k a)) -> ro (bind m k).
Proof. intros Hm Hk st. rewrite state_of_bind, Hk, Hm. reflexivity. Qed.

Lemma ro_ret {A} (a : A) : ro (ret a).
Proof. intros st; reflexivity. Qed.

Lemma ro_get : ro get.
Proof. intros st; reflexivity. Qed.

Lemma ro_out os : ro (out os).
Proof. intros st; reflexivity. Qed.

Lemma ro_forM {A} (xs : list A) f : (forall x, ro (f x)) -> ro (forM_ xs f).
Proof.
  intros Hf; induction xs as [|x xs IH]; simpl.
  - apply ro_ret.
  - apply ro_bind; auto.
Qed.

Lemma ro_when b m : ro m -> ro (when b m).
Proof. intros H; destruct b; [exact H | apply ro_ret]. Qed.

Lemma outs_forM_ro {A} (xs : list A) f st :
  (forall x, ro (f x)) ->
  outs_of (forM_ xs f) st = flat_map (fun x => outs_of (f x) st) xs.
Proof.
  intros Hf; induction xs as [|x xs IH]; simpl.
  - reflexivity.
  - rewrite outs_of_bind, Hf, IH. reflexivity.
Qed.

Create HintDb ro_db.
#[local] Hint Resolve ro_ret ro_get ro_out ro_bind ro_forM ro_when : ro_db.

Ltac ro_tac :=
  repeat first
    [ apply ro_bind; intros
    | apply ro_forM; intros
    | apply ro_when
    | apply ro_ret | apply ro_get | apply ro_out
    | match goal with |- ro (match ?x with _ => _ end) => destruct x end
    | match goal with |- ro (if ?x then _ else _) => destruct x end
    | match goal with |- ro (let '(_, _) := ?x in _) => destruct x end ].

Lemma ro_io_to room ev d : ro (io_to room ev d).
Proof. unfold io_to; ro_tac. Qed.

Lemma ro_socket_to self room ev d : ro (socket_to self room ev d).
Proof. unfold socket_to; ro_tac. Qed.

Lemma ro_socket_emit self ev d : ro (socket_emit self ev d).
Proof. apply ro_out. Qed.

Lemma ro_io_emit ev d : ro (io_emit ev d).
Proof. unfold io_emit; ro_tac. Qed.

Lemma ro_emit_to_user uid ev d : ro (emit_to_user uid ev d).
Proof. unfold emit_to_user, lookup_socket; ro_tac; apply ro_io_to. Qed.

Lemma ro_lookup_call c : ro (lookup_call c).
Proof. unfold lookup_call; ro_tac. Qed.

#[local] Hint Resolve ro_io_to ro_socket_to ro_socket_emit ro_io_emit ro_emit_to_user
  ro_lookup_call : ro_db.

Lemma ro_leave_channels uid es : ro (leave_channels uid es).
Proof.
  induction es as [|[c us] es IH]; simpl; [apply ro_ret|].
  apply ro_bind; [destruct (JSSet.has uid us); auto with ro_db|].
  intros _; apply ro_bind; auto with ro_db.
Qed.

Lemma ro_end_calls uid es : ro (end_calls uid es).
Proof.
  induction es as [|[c k] es IH]; simpl; [apply ro_ret|].
  destruct (_ || _); apply ro_bind; auto with ro_db.
Qed.

(** ** Maps and sets *)

Section MapLemmas.
Context {V : Type}.
Implicit Types (m : list (string * V)) (v : V).

Lemma get_In k v m : JSMap.get k m = Some v -> In (k, v) m.
Proof.
  induction m as [|[k' v'] m IH]; simpl; [discriminate|].
  destruct (String.eqb_spec k k'); intros H.
  - inversion H; subst; left; reflexivity.
  - right; auto.
Qed.

Lemma get_None_notIn k v m : JSMap.get k m = None -> ~ In (k, v) m.
Proof.
  induction m as [|[k' v'] m IH]; simpl; [auto|].
  destruct (String.eqb_spec k k'); [discriminate|].
  intros H [E|E]; [inversion E; congruence | exact (IH H E)].
Qed.

Lemma has_get k m : JSMap.has k m = false <-> JSMap.get k m = None.
Proof. unfold JSMap.has; destruct (JSMap.get k m); split; congruence. Qed.

Lemma In_set k v k' v' m :
  In (k', v') (JSMap.set k v m) -> (k' = k /\ v' = v) \/ (k' <> k /\ In (k', v') m).
Proof.
  unfold JSMap.set. destruct (JSMap.has k m) eqn:Hh.
  - intros H; apply in_map_iff in H as [[k0 v0] [E H]].
    destruct (String.eqb_spec k k0); inversion E; subst.
    + left; auto.
    + right; split; [intros ->; congruence | exact H].
  - apply has_get in Hh.
    intros H; apply in_app_or in H as [H|[H|[]]].
    + right; split; auto. intros ->. exact (get_None_notIn k v' m Hh H).
    + inversion H; subst; auto.
Qed.

Lemma get_set_same k v m : JSMap.get k (JSMap.set k v m) = Some v.
Proof.
  unfold JSMap.set, JSMap.has. destruct (JSMap.get k m) eqn:G.
  - revert G; induction m as [|[a b] m IH]; simpl; [discriminate|].
    destruct (String.eqb_spec k a); simpl; intros G.
    + subst; rewrite ?String.eqb_refl; reflexivity.
    + destruct (String.eqb_spec k a); [congruence|]. apply IH, G.
  - induction m as [|[a b] m IH]; simpl in *.
    + rewrite ?String.eqb_refl; reflexivity.
    + destruct (String.eqb_spec k a); [discriminate|]. apply IH, G.
Qed.

Lemma In_delete k k' v' m :
  In (k', v') (JSMap.delete k m) <-> k' <> k /\ In (k', v') m.
Proof.
  unfold JSMap.delete. rewrite filter_In.
  destruct (String.eqb_spec k k'); simpl; intuition congruence.
Qed.

Lemma get_delete_same k m : JSMap.get k (JSMap.delete k m) = None.
Proof.
  induction m as [|[a b] m IH]; simpl; [reflexivity|].
  destruct (String.eqb_spec k a); simpl; [exact IH|].
  destruct (String.eqb_spec k a); [congruence | exact IH].
Qed.

Lemma get_delete_other k k' m : k' <> k -> JSMap.get k' (JSMap.delete k m) = JSMap.get k' m.
Proof.
  intros Hne; induction m as [|[a b] m IH]; simpl; [reflexivity|].
  destruct (String.eqb_spec k a); simpl.
  - subst. destruct (String.eqb_spec k' a); [congruence | exact IH].
  - destruct (String.eqb_spec k' a); [reflexivity | exact IH].
Qed.

Lemma delete_set k v m : JSMap.delete k (JSMap.set k v m) = JSMap.delete k m.
Proof.
  unfold JSMap.set. destruct (JSMap.has k m).
  - unfold JSMap.delete.
    induction m as [|[a b] m IH]; simpl; [reflexivity|].
    destruct (String.eqb_spec k a); simpl;
      [subst; rewrite String.eqb_refl; exact IH|].
    apply String.eqb_neq in n as Hn; rewrite Hn; simpl. f_equal; exact IH.
  - unfold JSMap.delete. rewrite filter_app; simpl. rewrite String.eqb_refl; simpl.
    apply app_nil_r.
Qed.

End MapLemmas.

Lemma set_has x s : JSSet.has x s = true <-> In x s.
Proof.
  unfold JSSet.has; rewrite existsb_exists; split.
  - intros [y [H E]]; apply String.eqb_eq in E; subst; exact H.
  - intros H; exists x; split; [exact H | apply String.eqb_refl].
Qed.

Lemma In_set_add x y s : In x (JSSet.add y s) <-> x = y \/ In x s.
Proof.
  unfold JSSet.add; destruct (JSSet.has y s) eqn:H.
  - apply set_has in H; split; [auto|]. intros [->|]; auto.
  - rewrite in_app_iff; simpl; intuition.
Qed.

Lemma In_set_delete x y s : In x (JSSet.delete y s) <-> In x s /\ x <> y.
Proof.
  unfold JSSet.delete; rewrite filter_In.
  destruct (String.eqb_spec y x); simpl; intuition congruence.
Qed.

(** ** Transport rooms *)

Lemma in_room_add r room s :
  in_room r s = true -> in_room r (mkSock (s_id s) (s_user s) (JSSet.add room (s_rooms s))) = true.
Proof.
  unfold in_room; simpl. rewrite !orb_true_iff, !existsb_exists.
  intros [H|[x [Hx E]]]; [left; exact H|right; exists x; split; auto].
  apply In_set_add; auto.
Qed.

Lemma in_room_delete r room s :
  r <> room -> in_room r s = true ->
  in_room r (mkSock (s_id s) (s_user s) (JSSet.delete room (s_rooms s))) = true.
Proof.
  unfold in_room; simpl. rewrite !orb_true_iff, !existsb_exists.
  intros Hne [H|[x [Hx E]]]; [left; exact H|right; exists x; split; auto].
  apply String.eqb_eq in E; subst. apply In_set_delete; auto.
Qed.

Lemma in_room_joined room s :
  in_room room (mkSock (s_id s) (s_user s) (JSSet.add room (s_rooms s))) = true.
Proof.
  unfold in_room; simpl. apply orb_true_iff; right. apply existsb_exists.
  exists room; split; [apply In_set_add; auto | apply String.eqb_refl].
Qed.

Lemma upd_id self f s : s_id (upd self f s) = s_id s.
Proof. unfold upd; destruct (String.eqb _ _); reflexivity. Qed.

Lemma upd_user self f s : s_user (upd self f s) = s_user s.
Proof. unfold upd; destruct (String.eqb _ _); reflexivity. Qed.

Lemma upd_other self f s : s_id s <> self -> upd self f s = s.
Proof. unfold upd; intros H; destruct (String.eqb_spec (s_id s) self); congruence. Qed.

Lemma in_room_upd_add self r room s :
  in_room r s = true -> in_room r (upd self (JSSet.add room) s) = true.
Proof. unfold upd; destruct (String.eqb _ _); [apply in_room_add | auto]. Qed.

Lemma in_room_upd_delete self r room s :
  r <> room -> in_room r s = true -> in_room r (upd self (JSSet.delete room) s) = true.
Proof. unfold upd; destruct (String.eqb _ _); [apply in_room_delete | auto]. Qed.

Lemma map_id_sock_update self f ss : map s_id (sock_update self f ss) = map s_id ss.
Proof. unfold sock_update; rewrite map_map; apply map_ext; apply upd_id. Qed.

Lemma In_sock_update self f s ss : In s ss -> In (upd self f s) (sock_update self f ss).
Proof. apply in_map. Qed.

Lemma In_sock_update_inv self f s' ss :
  In s' (sock_update self f ss) -> exists s, In s ss /\ s' = upd self f s.
Proof. unfold sock_update; rewrite in_map_iff; intros [s [E H]]; eauto. Qed.

Lemma nodup_same_id (ss : list Sock) s s' :
  NoDup (map s_id ss) -> In s ss -> In s' ss -> s_id s = s_id s' -> s = s'.
Proof.
  induction ss as [|x ss IH]; simpl; [tauto|].
  intros Hnd; inversion Hnd as [|? ? Hx Hnd']; subst.
  intros [<-|H1] [<-|H2] E; auto.
  - exfalso; apply Hx; rewrite E; apply in_map; exact H2.
  - exfalso; apply Hx; rewrite <- E; apply in_map; exact H1.
Qed.

Lemma channel_dm_room c d : channel_room c <> dm_room d.
Proof. unfold channel_room, dm_room; simpl; discriminate. Qed.

Lemma channel_room_inj c c' : channel_room c = channel_room c' -> c = c'.
Proof.
  unfold channel_room; intros H.
  do 8 (apply (f_equal (fun s => match s with String _ t => t | EmptyString => s end)) in H;
        simpl in H).
  exact H.
Qed.

Lemma dm_room_inj d d' : dm_room d = dm_room d' -> d = d'.
Proof.
  unfold dm_room; intros H.
  do 3 (apply (f_equal (fun s => match s with String _ t => t | EmptyString => s end)) in H;
        simpl in H).
  exact H.
Qed.

(** ** Which handlers touch the registries *)

Lemma keeps_ro {A} (m : M A) : ro m -> keeps m.
Proof. intros H st; rewrite H; reflexivity. Qed.

Lemma keeps_bind {A B} (m : M A) (k : A -> M B) :
  keeps m -> (forall a, keeps (k a)) -> keeps (bind m k).
Proof. intros Hm Hk st. rewrite state_of_bind, Hk, Hm. reflexivity. Qed.

Lemma keeps_modify f : (forall st, regs (f st) = regs st) -> keeps (modify f).
Proof. intros H st; apply H. Qed.

Lemma keeps_forM {A} (xs : list A) f : (forall x, keeps (f x)) -> keeps (forM_ xs f).
Proof.
  intros Hf; induction xs as [|x xs IH]; simpl.
  - apply keeps_ro, ro_ret.
  - apply keeps_bind; auto.
Qed.

Ltac keeps_tac :=
  repeat first
    [ apply keeps_bind; intros
    | apply keeps_forM; intros
    | apply keeps_modify; intros; reflexivity
    | apply keeps_ro; solve [auto with ro_db]
    | match goal with |- keeps (when ?b _) => destruct b; simpl end
    | match goal with |- keeps (match ?x with _ => _ end) => destruct x end
    | match goal with |- keeps (if ?x then _ else _) => destruct x end ].

Lemma keeps_set_online uid b now : keeps (set_online uid b now).
Proof. unfold set_online; keeps_tac. Qed.

Lemma keeps_deliver_pending uid rows room ev key now :
  keeps (deliver_pending uid rows room ev key now).
Proof. unfold deliver_pending, modify_messages; keeps_tac. Qed.

Lemma handle_keeps self uid now e : room_event e = false -> keeps (handle self uid now e).
Proof.
  destruct e; simpl; intros H; try discriminate;
  unfold on_relay, on_new_message, on_new_dm_message, on_messages_delivered,
    on_messages_read, on_dm_messages_delivered, on_dm_messages_read, notify_senders,
    modify_messages, on_call_initiate, on_call_accept, on_call_reject, on_call_end,
    on_call_offer, on_call_answer, on_ice_candidate, on_call_toggle_media,
    delete_call, lookup_socket;
  keeps_tac.
Qed.

(** ** The effect of the room handlers, connection and disconnection *)

Lemma regs_join_channel self uid c st :
  regs (state_of (on_join_channel self uid c) st) =
  if find_member (db_channelMembers (db st)) c uid
  then (sock_update self (JSSet.add (channel_room c)) (sockets st),
        track uid c (channelUsers st), dmUsers st, userSockets st)
  else regs st.
Proof.
  unfold on_join_channel. rewrite state_of_bind. simpl.
  destruct (find_member _ c uid); reflexivity.
Qed.

Lemma regs_leave_channel self uid c st :
  regs (state_of (on_leave_channel self uid c) st) =
  (sock_update self (JSSet.delete (channel_room c)) (sockets st),
   untrack uid c (channelUsers st), dmUsers st, userSockets st).
Proof. reflexivity. Qed.

Lemma regs_join_dm self uid d st :
  regs (state_of (on_join_dm self uid d) st) =
  if find_member (db_dmMembers (db st)) d uid
  then (sock_update self (JSSet.add (dm_room d)) (sockets st),
        channelUsers st, track uid d (dmUsers st), userSockets st)
  else regs st.
Proof.
  unfold on_join_dm. rewrite state_of_bind. simpl.
  destruct (find_member _ d uid); reflexivity.
Qed.

Lemma regs_leave_dm self uid d st :
  regs (state_of (on_leave_dm self uid d) st) =
  (sock_update self (JSSet.delete (dm_room d)) (sockets st),
   channelUsers st, untrack uid d (dmUsers st), userSockets st).
Proof. reflexivity. Qed.

Lemma regs_connect sid uid now st :
  regs (state_of (on_connect sid uid now) st) =
  (sock_update sid (JSSet.add (user_room uid)) (sockets st ++ [mkSock sid uid []]),
   channelUsers st, dmUsers st, JSMap.set uid sid (userSockets st)).
Proof.
  unfold on_connect. rewrite !state_of_bind.
  rewrite (keeps_deliver_pending _ _ _ _ _ _ (state_of _ _)).
  rewrite (keeps_deliver_pending _ _ _ _ _ _ (state_of _ _)).
  rewrite (ro_io_emit _ _ _).
  rewrite (keeps_set_online _ _ _ (state_of _ _)).
  reflexivity.
Qed.

Lemma val_of_bind {A B} (m : M A) (k : A -> M B) st :
  val_of (bind m k) st = val_of (k (val_of m st)) (state_of m st).
Proof.
  unfold state_of, val_of, bind.
  destruct (m st) as [[a st1] o1]; simpl. destruct (k a st1) as [[b st2] o2]; reflexivity.
Qed.

Lemma val_leave_channels uid es st : val_of (leave_channels uid es) st = strip uid es.
Proof.
  revert st; induction es as [|[c us] es IH]; intros st; [reflexivity|].
  simpl leave_channels. rewrite !val_of_bind, IH. reflexivity.
Qed.

Lemma val_end_calls uid es st :
  val_of (end_calls uid es) st = filter (fun '(_, c) => negb (involves uid c)) es.
Proof.
  revert st; induction es as [|[k c] es IH]; intros st; [reflexivity|].
  simpl end_calls. unfold involves. simpl filter.
  destruct (_ || _); simpl; rewrite !val_of_bind, IH; reflexivity.
Qed.

Lemma regs_disconnect self uid now st :
  regs (state_of (on_disconnect self uid now) st) =
  (filter (fun s => negb (String.eqb (s_id s) self)) (sockets st),
   strip uid (channelUsers st), strip_dms uid (dmUsers st),
   JSMap.delete uid (userSockets st)).
Proof.
  unfold on_disconnect. rewrite !state_of_bind.
  rewrite ro_io_emit. simpl. rewrite ro_end_calls. simpl.
  rewrite ro_leave_channels, val_leave_channels. reflexivity.
Qed.

(** ** The well-formedness invariant of the registries *)

Lemma wf_regs st st' : regs st' = regs st -> wf st -> wf st'.
Proof.
  unfold regs, wf; intros E; inversion E as [[E1 E2 E3 E4]].
  rewrite E1, E2, E3, E4; auto.
Qed.

Lemma live_ok_add room m ss self r :
  live_ok room m ss -> live_ok room m (sock_update self (JSSet.add r) ss).
Proof.
  intros H k users v Hin Hv. destruct (H k users v Hin Hv) as [s [Hs [Hu Hr]]].
  exists (upd self (JSSet.add r) s); split; [apply In_sock_update; exact Hs|].
  rewrite upd_user; split; [exact Hu | apply in_room_upd_add; exact Hr].
Qed.

Lemma registered_update ss us self f :
  (forall u h, In (u, h) us -> exists s, In s ss /\ s_id s = h /\ s_user s = u) ->
  (forall u h, In (u, h) us ->
     exists s, In s (sock_update self f ss) /\ s_id s = h /\ s_user s = u).
Proof.
  intros H u h Hin. destruct (H u h Hin) as [s [Hs [Hi Hu]]].
  exists (upd self f s); rewrite upd_id, upd_user; split; auto. apply In_sock_update; auto.
Qed.

Lemma nonempty_update ss self f :
  (forall s, In s ss -> s_id s <> "") -> forall s, In s (sock_update self f ss) -> s_id s <> "".
Proof.
  intros H s Hs. apply In_sock_update_inv in Hs as [s0 [Hs0 ->]]. rewrite upd_id; auto.
Qed.

Lemma live_ok_track room m ss s c :
  In s ss -> live_ok room m ss ->
  live_ok room (track (s_user s) c m) (sock_update (s_id s) (JSSet.add (room c)) ss).
Proof.
  intros Hs H k users v Hin Hv. unfold track in Hin.
  apply In_set in Hin as [[-> ->]|[Hne Hin]].
  - apply In_set_add in Hv as [->|Hv].
    + exists (upd (s_id s) (JSSet.add (room c)) s); split; [apply In_sock_update; auto|].
      rewrite upd_user; split; [reflexivity|].
      unfold upd; rewrite String.eqb_refl; apply in_room_joined.
    + destruct (JSMap.get c m) as [base|] eqn:G; [|destruct Hv].
      apply get_In in G. exact (live_ok_add room m ss _ _ H c base v G Hv).
  - exact (live_ok_add room m ss _ _ H k users v Hin Hv).
Qed.

Lemma live_ok_untrack room m ss s c :
  (forall a b, room a = room b -> a = b) ->
  NoDup (map s_id ss) -> In s ss -> live_ok room m ss ->
  live_ok room (untrack (s_user s) c m) (sock_update (s_id s) (JSSet.delete (room c)) ss).
Proof.
  intros Hinj Hnd Hs H k users v Hin Hv. unfold untrack in Hin.
  assert (Keep : forall k', k' <> c -> forall us, In (k', us) m -> In v us ->
            exists s', In s' (sock_update (s_id s) (JSSet.delete (room c)) ss) /\
                       s_user s' = v /\ in_room (room k') s' = true).
  { intros k' Hk' us Hi Hv'. destruct (H k' us v Hi Hv') as [s1 [Hs1 [Hu Hr]]].
    exists (upd (s_id s) (JSSet.delete (room c)) s1); split; [apply In_sock_update; auto|].
    rewrite upd_user; split; [exact Hu|].
    apply in_room_upd_delete; [intros E; apply Hk', Hinj, E | exact Hr]. }
  destruct (JSMap.get c m) as [base|] eqn:G.
  - apply In_set in Hin as [[-> ->]|[Hne Hin]]; [|exact (Keep k Hne users Hin Hv)].
    apply In_set_delete in Hv as [Hv Hvu]. apply get_In in G.
    destruct (H c base v G Hv) as [s1 [Hs1 [Hu Hr]]].
    exists s1; split; [|split; [exact Hu | exact Hr]].
    assert (Hid : s_id s1 <> s_id s).
    { intros E. apply Hvu. rewrite <- Hu. f_equal. eapply nodup_same_id; eauto. }
    rewrite <- (upd_other (s_id s) (JSSet.delete (room c)) s1 Hid).
    apply In_sock_update; exact Hs1.
  - refine (Keep k _ users Hin Hv). intros ->. exact (get_None_notIn c users m G Hin).
Qed.

Lemma live_ok_delete_other room m ss self r :
  (forall k, room k <> r) ->
  live_ok room m ss -> live_ok room m (sock_update self (JSSet.delete r) ss).
Proof.
  intros Hr H k users v Hin Hv. destruct (H k users v Hin Hv) as [s [Hs [Hu Hk]]].
  exists (upd self (JSSet.delete r) s); split; [apply In_sock_update; exact Hs|].
  rewrite upd_user; split; [exact Hu | apply in_room_upd_delete; auto].
Qed.

Lemma live_ok_incl room m ss ss' :
  incl ss ss' -> live_ok room m ss -> live_ok room m ss'.
Proof.
  intros Hi H k users v Hin Hv. destruct (H k users v Hin Hv) as [s [Hs R]].
  exists s; split; [apply Hi; exact Hs | exact R].
Qed.

Lemma nodup_map_filter (f : Sock -> string) p ss :
  NoDup (map f ss) -> NoDup (map f (filter p ss)).
Proof.
  induction ss as [|x ss IH]; simpl; [auto|].
  intros Hnd; inversion Hnd as [|? ? Hx Hnd']; subst.
  destruct (p x); simpl; [|auto].
  constructor; [|auto]. intros Hin; apply Hx.
  apply in_map_iff in Hin as [y [E Hy]]. apply filter_In in Hy as [Hy _].
  rewrite <- E; apply in_map; exact Hy.
Qed.

Lemma survives ss s s1 :
  NoDup (map s_id ss) -> In s ss -> In s1 ss -> s_user s1 <> s_user s ->
  In s1 (filter (fun x => negb (String.eqb (s_id x) (s_id s))) ss).
Proof.
  intros Hnd Hs Hs1 Hu. apply filter_In; split; [exact Hs1|].
  destruct (String.eqb_spec (s_id s1) (s_id s)) as [E|E]; [|reflexivity].
  exfalso; apply Hu; f_equal; eapply nodup_same_id; eauto.
Qed.

Lemma colon_channel c : has_colon (channel_room c) = true.
Proof. reflexivity. Qed.
Lemma colon_dm d : has_colon (dm_room d) = true.
Proof. reflexivity. Qed.
Lemma colon_user u : has_colon (user_room u) = true.
Proof. reflexivity. Qed.

Lemma ids_update self f ss :
  (forall s, In s ss -> has_colon (s_id s) = false) ->
  forall s, In s (sock_update self f ss) -> has_colon (s_id s) = false.
Proof.
  intros H s Hs. apply In_sock_update_inv in Hs as [s0 [Hs0 ->]]. rewrite upd_id; auto.
Qed.

Lemma rooms_update self f ss :
  (forall s r, In s ss -> In r (s_rooms s) -> has_colon r = true) ->
  (forall rs r, In r (f rs) -> In r rs \/ has_colon r = true) ->
  forall s r, In s (sock_update self f ss) -> In r (s_rooms s) -> has_colon r = true.
Proof.
  intros H Hf s r Hs Hr. apply In_sock_update_inv in Hs as [s0 [Hs0 ->]].
  unfold upd in Hr. destruct (String.eqb _ _); simpl in Hr; [|eauto].
  destruct (Hf _ _ Hr); eauto.
Qed.

Lemma add_rooms room : has_colon room = true ->
  forall rs r, In r (JSSet.add room rs) -> In r rs \/ has_colon r = true.
Proof. intros H rs r Hr; apply In_set_add in Hr as [->|]; auto. Qed.

Lemma delete_rooms room :
  forall rs r, In r (JSSet.delete room rs) -> In r rs \/ has_colon r = true.
Proof. intros rs r Hr; apply In_set_delete in Hr as [? _]; auto. Qed.

Lemma wf_init d : wf (init d).
Proof.
  constructor; simpl.
  - constructor.
  - tauto.
  - tauto.
  - tauto.
  - tauto.
  - intros k users v [].
  - intros k users v [].
Qed.

Lemma WF_connect ss cu du us sid uid :
  WF ss cu du us -> sid <> "" -> ~ In sid (map s_id ss) -> has_colon sid = false ->
  WF (sock_update sid (JSSet.add (user_room uid)) (ss ++ [mkSock sid uid []]))
     cu du (JSMap.set uid sid us).
Proof.
  intros [Hnd Hne Hid Hro Hreg Hch Hdm] Hsid Hfresh Hcol.
  set (new := mkSock sid uid []).
  assert (Hincl : incl ss (ss ++ [new])) by (intros x Hx; apply in_or_app; left; exact Hx).
  constructor.
  - rewrite map_id_sock_update, map_app. simpl.
    apply (Permutation_NoDup (Permutation_cons_append (map s_id ss) sid)).
    constructor; assumption.
  - apply nonempty_update. intros x Hx; apply in_app_or in Hx as [Hx|[<-|[]]]; auto.
  - apply ids_update. intros x Hx; apply in_app_or in Hx as [Hx|[<-|[]]]; auto.
  - apply rooms_update; [|apply add_rooms, colon_user].
    intros x r Hx; apply in_app_or in Hx as [Hx|[<-|[]]]; [eauto | simpl; tauto].
  - apply registered_update. intros u h Hin.
    apply In_set in Hin as [[-> ->]|[_ Hin]].
    + exists new; split; [apply in_or_app; right; left; reflexivity | split; reflexivity].
    + destruct (Hreg u h Hin) as [x [Hx R]]. exists x; split; [apply Hincl|]; assumption.
  - apply live_ok_add, (live_ok_incl _ _ _ _ Hincl), Hch.
  - apply live_ok_add, (live_ok_incl _ _ _ _ Hincl), Hdm.
Qed.

Lemma WF_disconnect ss cu du us s :
  WF ss cu du us -> In s ss ->
  WF (filter (fun x => negb (String.eqb (s_id x) (s_id s))) ss)
     (strip (s_user s) cu) (strip_dms (s_user s) du) (JSMap.delete (s_user s) us).
Proof.
  intros [Hnd Hne Hid Hro Hreg Hch Hdm] Hs. constructor.
  - apply nodup_map_filter; exact Hnd.
  - intros x Hx; apply filter_In in Hx as [Hx _]; auto.
  - intros x Hx; apply filter_In in Hx as [Hx _]; auto.
  - intros x r Hx; apply filter_In in Hx as [Hx _]; eauto.
  - intros u h Hin. apply In_delete in Hin as [Hu Hin].
    destruct (Hreg u h Hin) as [x [Hx [Hi Hxu]]].
    exists x; split; [apply survives; auto; congruence | auto].
  - intros k users' v Hin Hv. unfold strip in Hin.
    apply in_map_iff in Hin as [[k0 users] [E Hin]]. inversion E; subst k0 users'.
    assert (Hvu : In v users /\ v <> s_user s).
    { destruct (JSSet.has (s_user s) users) eqn:Hh.
      - apply In_set_delete in Hv; exact Hv.
      - split; [exact Hv|]. intros ->. apply set_has in Hv. congruence. }
    destruct Hvu as [Hv' Hvu].
    destruct (Hch k users v Hin Hv') as [x [Hx [Hxu R]]].
    exists x; split; [apply survives; auto; congruence | auto].
  - intros k users' v Hin Hv. unfold strip_dms in Hin.
    apply in_map_iff in Hin as [[k0 users] [E Hin]]. inversion E; subst k0 users'.
    apply In_set_delete in Hv as [Hv' Hvu].
    destruct (Hdm k users v Hin Hv') as [x [Hx [Hxu R]]].
    exists x; split; [apply survives; auto; congruence | auto].
Qed.

Lemma WF_join_channel ss cu du us s c :
  WF ss cu du us -> In s ss ->
  WF (sock_update (s_id s) (JSSet.add (channel_room c)) ss) (track (s_user s) c cu) du us.
Proof.
  intros [Hnd Hne Hid Hro Hreg Hch Hdm] Hs. constructor.
  - rewrite map_id_sock_update; exact Hnd.
  - apply nonempty_update; exact Hne.
  - apply ids_update; exact Hid.
  - apply rooms_update; [exact Hro|apply add_rooms, colon_channel].
  - apply registered_update; exact Hreg.
  - apply live_ok_track; assumption.
  - apply live_ok_add; exact Hdm.
Qed.

Lemma WF_join_dm ss cu du us s d :
  WF ss cu du us -> In s ss ->
  WF (sock_update (s_id s) (JSSet.add (dm_room d)) ss) cu (track (s_user s) d du) us.
Proof.
  intros [Hnd Hne Hid Hro Hreg Hch Hdm] Hs. constructor.
  - rewrite map_id_sock_update; exact Hnd.
  - apply nonempty_update; exact Hne.
  - apply ids_update; exact Hid.
  - apply rooms_update; [exact Hro|apply add_rooms, colon_dm].
  - apply registered_update; exact Hreg.
  - apply live_ok_add; exact Hch.
  - apply live_ok_track; assumption.
Qed.

Lemma WF_leave_channel ss cu du us s c :
  WF ss cu du us -> In s ss ->
  WF (sock_update (s_id s) (JSSet.delete (channel_room c)) ss) (untrack (s_user s) c cu) du us.
Proof.
  intros [Hnd Hne Hid Hro Hreg Hch Hdm] Hs. constructor.
  - rewrite map_id_sock_update; exact Hnd.
  - apply nonempty_update; exact Hne.
  - apply ids_update; exact Hid.
  - apply rooms_update; [exact Hro|apply delete_rooms].
  - apply registered_update; exact Hreg.
  - apply live_ok_untrack; auto. apply channel_room_inj.
  - apply live_ok_delete_other; auto. intros k E; exact (channel_dm_room c k (eq_sym E)).
Qed.

Lemma WF_leave_dm ss cu du us s d :
  WF ss cu du us -> In s ss ->
  WF (sock_update (s_id s) (JSSet.delete (dm_room d)) ss) cu (untrack (s_user s) d du) us.
Proof.
  intros [Hnd Hne Hid Hro Hreg Hch Hdm] Hs. constructor.
  - rewrite map_id_sock_update; exact Hnd.
  - apply nonempty_update; exact Hne.
  - apply ids_update; exact Hid.
  - apply rooms_update; [exact Hro|apply delete_rooms].
  - apply registered_update; exact Hreg.
  - apply live_ok_delete_other; auto. intros k E; exact (channel_dm_room k d E).
  - apply live_ok_untrack; auto. apply dm_room_inj.
Qed.

Lemma val_of_get st : val_of get st = st.
Proof. reflexivity. Qed.

Lemma state_of_get st : state_of get st = st.
Proof. reflexivity. Qed.

Lemma find_socket_some sid ss s :
  find_socket sid ss = Some s -> In s ss /\ s_id s = sid.
Proof.
  unfold find_socket; intros H. apply find_some in H as [H E].
  apply String.eqb_eq in E; auto.
Qed.

Lemma wf_regs_eq st ss cu du us :
  regs st = (ss, cu, du, us) -> WF ss cu du us -> wf st.
Proof. unfold regs, wf; intros E; inversion E; subst; auto. Qed.

Lemma reachable_wf st : reachable st -> wf st.
Proof.
  induction 1 as [d|st a now Hr IH Hf]; [apply wf_init|].
  rewrite run_state_outs; simpl.
  destruct a as [sid uid|sid e|sid]; simpl in Hf |- *.
  - apply andb_true_iff in Hf as [Hf H3]. apply andb_true_iff in Hf as [H1 H2].
    apply negb_true_iff in H1, H2, H3.
    eapply wf_regs_eq; [apply regs_connect|].
    apply WF_connect; [exact IH | apply String.eqb_neq, H1 | | exact H3].
    intros Hin; apply in_map_iff in Hin as [x [E Hx]].
    assert (existsb (fun s => String.eqb (s_id s) sid) (sockets st) = true)
      by (apply existsb_exists; exists x; split; [exact Hx | apply String.eqb_eq, E]).
    congruence.
  - rewrite state_of_bind, val_of_get, state_of_get.
    destruct (find_socket sid (sockets st)) as [s|] eqn:F; [|exact IH].
    apply find_socket_some in F as [Hs <-].
    destruct (room_event e) eqn:Hre.
    + destruct e; try discriminate; simpl.
      * pose proof (regs_join_channel (s_id s) (s_user s) channelId st) as E.
        destruct (find_member _ _ _).
        -- eapply wf_regs_eq; [exact E | apply WF_join_channel; auto].
        -- exact (wf_regs _ _ E IH).
      * eapply wf_regs_eq; [apply regs_leave_channel | apply WF_leave_channel; auto].
      * pose proof (regs_join_dm (s_id s) (s_user s) dmId st) as E.
        destruct (find_member _ _ _).
        -- eapply wf_regs_eq; [exact E | apply WF_join_dm; auto].
        -- exact (wf_regs _ _ E IH).
      * eapply wf_regs_eq; [apply regs_leave_dm | apply WF_leave_dm; auto].
    + exact (wf_regs _ _ (handle_keeps _ _ _ _ Hre st) IH).
  - rewrite state_of_bind, val_of_get, state_of_get.
    destruct (find_socket sid (sockets st)) as [s|] eqn:F; [|exact IH].
    apply find_socket_some in F as [Hs <-].
    eapply wf_regs_eq; [apply regs_disconnect | apply WF_disconnect; auto].
Qed.

(** ** Targeted emission on a well-formed server *)

Lemma filter_id_single (ss : list Sock) x :
  NoDup (map s_id ss) -> In x ss ->
  filter (fun s => String.eqb (s_id s) (s_id x)) ss = [x].
Proof.
  induction ss as [|y ss IH]; simpl; [tauto|].
  intros Hnd; inversion Hnd as [|? ? Hy Hnd']; subst.
  intros [<-|Hx].
  - rewrite String.eqb_refl. f_equal.
    rewrite (filter_ext_in _ (fun _ => false)); [apply filter_false|].
    intros z Hz. apply String.eqb_neq.
    intros E; apply Hy; rewrite <- E; apply in_map; exact Hz.
  - destruct (String.eqb_spec (s_id y) (s_id x)) as [E|E].
    + exfalso; apply Hy; rewrite E; apply in_map; exact Hx.
    + apply IH; assumption.
Qed.

Lemma in_room_id st x s :
  wf st -> In x (sockets st) -> In s (sockets st) ->
  in_room (s_id x) s = String.eqb (s_id s) (s_id x).
Proof.
  intros W Hx Hs. unfold in_room.
  destruct (existsb (String.eqb (s_id x)) (s_rooms s)) eqn:E; [|apply orb_false_r].
  apply existsb_exists in E as [r [Hr Er]]. apply String.eqb_eq in Er; subst r.
  pose proof (wf_ids _ _ _ _ W x Hx) as H1. pose proof (wf_rooms _ _ _ _ W s _ Hs Hr) as H2.
  congruence.
Qed.

Lemma deliver_to_id st x ev d :
  wf st -> In x (sockets st) ->
  deliver (filter (in_room (s_id x)) (sockets st)) ev d = [mkOut (s_id x) ev d].
Proof.
  intros W Hx.
  rewrite (filter_ext_in _ (fun s => String.eqb (s_id s) (s_id x))).
  - rewrite filter_id_single; [reflexivity | apply (wf_nodup _ _ _ _ W) | exact Hx].
  - intros s Hs; eapply in_room_id; eassumption.
Qed.

(** [io.to(userSockets.get(u))] reaches exactly u's registered connection. *)
Lemma emit_to_user_exact st u ev d :
  wf st ->
  outs_of (emit_to_user u ev d) st =
  match JSMap.get u (userSockets st) with Some h => [mkOut h ev d] | None => [] end.
Proof.
  intros W. unfold outs_of, emit_to_user, lookup_socket, bind, get, ret, io_to, out.
  simpl. destruct (JSMap.get u (userSockets st)) as [h|] eqn:G; [|reflexivity].
  apply get_In in G. destruct (wf_registered _ _ _ _ W u h G) as [x [Hx [<- _]]].
  unfold truthy. destruct (String.eqb_spec (s_id x) "") as [E|E].
  - exfalso; exact (wf_nonempty _ _ _ _ W x Hx E).
  - simpl. rewrite deliver_to_id by assumption. reflexivity.
Qed.

(** ** Call initiation *)

Lemma initiate_offline_run st self uid rcv type ch now :
  isUserOnline st rcv = false ->
  run (handle self uid now (ECallInitiate rcv type ch)) st =
  (set_activeCalls (JSMap.delete (call_id uid rcv now) (activeCalls st)) st,
   [mkOut self "call_failed"
      (VObj [("callId", VStr (call_id uid rcv now)); ("reason", VStr "User is offline")]);
    mkOut self "call_initiated"
      (VObj [("callId", VStr (call_id uid rcv now)); ("receiverId", VStr rcv);
             ("type", type_str type)])]).
Proof.
  unfold isUserOnline; intros H; apply has_get in H.
  unfold run, handle, on_call_initiate, lookup_socket, delete_call, socket_emit,
    bind, modify, get, ret, out; simpl.
  rewrite H; simpl. rewrite delete_set. reflexivity.
Qed.

Lemma initiate_last_initiated st self uid rcv type ch now :
  exists pre, snd (run (handle self uid now (ECallInitiate rcv type ch)) st) =
    pre ++ [mkOut self "call_initiated"
              (VObj [("callId", VStr (call_id uid rcv now)); ("receiverId", VStr rcv);
                     ("type", type_str type)])].
Proof.
  unfold run, handle, on_call_initiate, lookup_socket, delete_call, socket_emit,
    bind, modify, get, ret, out; simpl.
  destruct (truthy _).
  - destruct (emit_to_user _ _ _ _) as [[[] st1] o1]. simpl.
    eexists; reflexivity.
  - eexists; reflexivity.
Qed.

(** ** Disconnection *)

Lemma disconnect_run self uid now st :
  exists o1 o2,
    outs_of (on_disconnect self uid now) st =
    o1 ++ o2 ++ deliver (filter (fun s => negb (String.eqb (s_id s) self)) (sockets st))
                  "user_presence"
                  (VObj [("userId", VStr uid); ("status", VStr "offline");
                         ("lastActive", VNum now)]).
Proof.
  unfold on_disconnect, outs_of, bind, modify, get, ret, io_emit, out, set_online; simpl.
  match goal with |- context [leave_channels ?u ?es ?s] =>
    pose proof (ro_leave_channels u es s) as R1; unfold state_of in R1;
    destruct (leave_channels u es s) as [[cu st2] o1]; simpl in R1; subst st2 end.
  match goal with |- context [end_calls ?u ?es ?s] =>
    pose proof (ro_end_calls u es s) as R2; unfold state_of in R2;
    destruct (end_calls u es s) as [[ac st4] o2]; simpl in R2; subst st4 end.
  simpl. exists o1, o2. rewrite ?app_nil_r. reflexivity.
Qed.

(** ** Claims about call initiation *)

(** C7: when the receiver is offline, [call_initiate] answers the caller's
    connection with [call_failed] ("User is offline") and the session it
    created is deleted before the handler returns: no session with that
    call identifier is left, and the rest of the call table is as before. *)
Theorem call_initiate_offline_no_session st self uid rcv type ch now :
  isUserOnline st rcv = false ->
  let '(st', outs) := run (handle self uid now (ECallInitiate rcv type ch)) st in
  In (mkOut self "call_failed"
        (VObj [("callId", VStr (call_id uid rcv now)); ("reason", VStr "User is offline")]))
     outs
  /\ JSMap.get (call_id uid rcv now) (activeCalls st') = None
  /\ activeCalls st' = JSMap.delete (call_id uid rcv now) (activeCalls st).
Proof.
  intros H. rewrite (initiate_offline_run st self uid rcv type ch now H); simpl.
  split; [left; reflexivity|]. split; [apply get_delete_same | reflexivity].
Qed.

Lemma call_initiate_offline_no_session_witness :
  isUserOnline st_A_only "B" = false /\
  (let '(st', outs) := run (handle "sa" "A" 6 (ECallInitiate "B" Audio None)) st_A_only in
   In (mkOut "sa" "call_failed"
         (VObj [("callId", VStr (call_id "A" "B" 6)); ("reason", VStr "User is offline")]))
      outs
   /\ JSMap.get (call_id "A" "B" 6) (activeCalls st') = None
   /\ activeCalls st' = JSMap.delete (call_id "A" "B" 6) (activeCalls st_A_only)).
Proof.
  split; [vm_compute; reflexivity|].
  apply (call_initiate_offline_no_session st_A_only "sa" "A" "B" Audio None 6).
  vm_compute; reflexivity.
Defined.

(** C10: [call_initiated] with the generated identifier is always the last
    event the caller's connection gets from [call_initiate]; when the
    receiver is offline the caller gets [call_failed] and then
    [call_initiated] for the same identifier, whose session is already gone. *)
Theorem call_initiated_unconditional st self uid rcv type ch now :
  (exists pre, snd (run (handle self uid now (ECallInitiate rcv type ch)) st) =
     pre ++ [mkOut self "call_initiated"
               (VObj [("callId", VStr (call_id uid rcv now)); ("receiverId", VStr rcv);
                      ("type", type_str type)])])
  /\ (isUserOnline st rcv = false ->
      snd (run (handle self uid now (ECallInitiate rcv type ch)) st) =
        [mkOut self "call_failed"
           (VObj [("callId", VStr (call_id uid rcv now)); ("reason", VStr "User is offline")]);
         mkOut self "call_initiated"
           (VObj [("callId", VStr (call_id uid rcv now)); ("receiverId", VStr rcv);
                  ("type", type_str type)])]
      /\ JSMap.get (call_id uid rcv now)
           (activeCalls (fst (run (handle self uid now (ECallInitiate rcv type ch)) st))) = None).
Proof.
  split; [apply initiate_last_initiated|].
  intros H. rewrite (initiate_offline_run st self uid rcv type ch now H); simpl.
  split; [reflexivity | apply get_delete_same].
Qed.

Lemma call_initiated_unconditional_witness :
  isUserOnline st_A_only "B" = false /\
  snd (run (handle "sa" "A" 6 (ECallInitiate "B" Video None)) st_A_only) =
    [mkOut "sa" "call_failed"
       (VObj [("callId", VStr (call_id "A" "B" 6)); ("reason", VStr "User is offline")]);
     mkOut "sa" "call_initiated"
       (VObj [("callId", VStr (call_id "A" "B" 6)); ("receiverId", VStr "B");
              ("type", VStr "video")])].
Proof.
  split; [vm_compute; reflexivity|].
  apply (proj2 (call_initiated_unconditional st_A_only "sa" "A" "B" Video None 6)).
  vm_compute; reflexivity.
Defined.

(** ** Claim about connection replacement *)

(** C9: the registry is keyed by user only.  After U connects on [h1] and
    again on [h2], closing [h1] removes U's entry altogether: U is reported
    offline to every live connection, including [h2], which is still open. *)
Theorem disconnect_keyed_by_user st u h1 h2 n1 n2 n3 :
  h1 <> h2 ->
  let st1 := fst (run (on_connect h1 u n1) st) in
  let st2 := fst (run (on_connect h2 u n2) st1) in
  let '(st3, outs) := run (on_disconnect h1 u n3) st2 in
  JSMap.get u (userSockets st3) = None
  /\ isUserOnline st3 u = false
  /\ (exists s, In s (sockets st3) /\ s_id s = h2 /\ s_user s = u)
  /\ In (mkOut h2 "user_presence"
         (VObj [("userId", VStr u); ("status", VStr "offline"); ("lastActive", VNum n3)]))
       outs.
Proof.
  intros Hne st1 st2. rewrite run_state_outs.
  pose proof (regs_disconnect h1 u n3 st2) as E3. unfold regs in E3.
  inversion E3 as [[S3 C3 D3 U3]].
  assert (Hs2 : In (mkSock h2 u [user_room u]) (sockets st2)).
  { unfold st2. rewrite run_state_outs. simpl.
    pose proof (regs_connect h2 u n2 st1) as E2. unfold regs in E2.
    inversion E2 as [[S2 C2 D2 U2]]. rewrite S2.
    assert (Eu : upd h2 (JSSet.add (user_room u)) (mkSock h2 u []) = mkSock h2 u [user_room u])
      by (unfold upd; simpl; rewrite String.eqb_refl; reflexivity).
    rewrite <- Eu. apply In_sock_update, in_or_app; right; left; reflexivity. }
  assert (Hs3 : In (mkSock h2 u [user_room u]) (sockets (state_of (on_disconnect h1 u n3) st2))).
  { rewrite S3. apply filter_In; split; [exact Hs2|]. simpl.
    destruct (String.eqb_spec h2 h1); [congruence | reflexivity]. }
  split; [|split; [|split]].
  - rewrite U3. apply get_delete_same.
  - unfold isUserOnline; apply has_get. rewrite U3. apply get_delete_same.
  - exists (mkSock h2 u [user_room u]); auto.
  - destruct (disconnect_run h1 u n3 st2) as [o1 [o2 ->]].
    apply in_or_app; right; apply in_or_app; right.
    rewrite <- S3. unfold deliver.
    exact (in_map (fun s => mkOut (s_id s) _ _) _ _ Hs3).
Qed.

Lemma disconnect_keyed_by_user_witness :
  ("sa1" <> "sa2") /\
  (let st1 := fst (run (on_connect "sa1" "A" 1) (init db0)) in
   let st2 := fst (run (on_connect "sa2" "A" 2) st1) in
   let '(st3, outs) := run (on_disconnect "sa1" "A" 3) st2 in
   JSMap.get "A" (userSockets st3) = None
   /\ isUserOnline st3 "A" = false
   /\ (exists s, In s (sockets st3) /\ s_id s = "sa2" /\ s_user s = "A")
   /\ In (mkOut "sa2" "user_presence"
          (VObj [("userId", VStr "A"); ("status", VStr "offline"); ("lastActive", VNum 3)]))
        outs).
Proof.
  split; [discriminate|].
  apply (disconnect_keyed_by_user (init db0) "A" "sa1" "sa2" 1 2 3). discriminate.
Defined.

(** ** Call signaling *)

Lemma val_lookup_call id st : val_of (lookup_call id) st = JSMap.get id (activeCalls st).
Proof. reflexivity. Qed.

Lemma outs_lookup_call id st : outs_of (lookup_call id) st = [].
Proof. reflexivity. Qed.

Ltac signal_tac H :=
  rewrite run_state_outs, state_of_bind, outs_of_bind, val_lookup_call,
    outs_lookup_call, ro_lookup_call, H; simpl.

(** C1 (as the code has it): every signaling event naming an unknown call
    is dropped without output and without a state change, except
    [call_accept], which answers the sender's own connection with an
    [error] event "Call not found" (still without a state change). *)
Theorem unknown_call_signaling st self uid now id :
  JSMap.get id (activeCalls st) = None ->
  (forall e, signal_call_id e = Some id -> run (handle self uid now e) st = (st, []))
  /\ run (handle self uid now (ECallAccept id)) st =
     (st, [mkOut self "error" (VObj [("message", VStr "Call not found")])]).
Proof.
  intros H; split.
  - intros e He; destruct e; simpl in He; try discriminate; inversion He; subst; simpl;
    [unfold on_call_reject | unfold on_call_end | unfold on_call_offer
    | unfold on_call_answer | unfold on_ice_candidate | unfold on_call_toggle_media];
    signal_tac H; reflexivity.
  - simpl; unfold on_call_accept. signal_tac H. reflexivity.
Qed.

Lemma unknown_call_signaling_witness :
  JSMap.get (call_id "A" "B" 6) (activeCalls st_call_ended) = None /\
  run (handle "sb" "B" 8 (ECallAccept (call_id "A" "B" 6))) st_call_ended =
    (st_call_ended, [mkOut "sb" "error" (VObj [("message", VStr "Call not found")])]).
Proof.
  split; [vm_compute; reflexivity|].
  apply (proj2 (unknown_call_signaling st_call_ended "sb" "B" 8 (call_id "A" "B" 6)
                  ltac:(vm_compute; reflexivity))).
Defined.

(** C1 fails as stated: after B ends the call, B's [call_accept] on the
    same identifier produces an outbound [error] event. *)
Lemma accept_after_end_emits_error :
  snd (run (act (AEvent "sb" (ECallAccept (call_id "A" "B" 6))) 8) st_call_ended)
  = [mkOut "sb" "error" (VObj [("message", VStr "Call not found")])]
  /\ snd (run (act (AEvent "sb" (ECallAccept (call_id "A" "B" 6))) 8) st_call_ended) <> [].
Proof. vm_compute. split; [reflexivity | discriminate]. Qed.

(** C5 (as the code has it): on an existing session, [call_offer] goes to
    the session's receiver and [call_answer] to its caller, whoever sends
    them; [ice_candidate] goes to the party other than the sender.  Each is
    delivered to that user's registered connection (if any) with the
    payload unchanged, and no state changes. *)
Theorem signaling_forwarding st self uid now id c (o : Value) :
  wf st -> JSMap.get id (activeCalls st) = Some c ->
  run (handle self uid now (ECallOffer id o)) st =
    (st, match JSMap.get (receiverId c) (userSockets st) with
         | Some h => [mkOut h "call_offer"
                       (VObj [("callId", VStr id); ("offer", o); ("callerId", VStr uid)])]
         | None => [] end)
  /\ run (handle self uid now (ECallAnswer id o)) st =
    (st, match JSMap.get (callerId c) (userSockets st) with
         | Some h => [mkOut h "call_answer"
                       (VObj [("callId", VStr id); ("answer", o); ("answererId", VStr uid)])]
         | None => [] end)
  /\ run (handle self uid now (EIceCandidate id o)) st =
    (st, match JSMap.get (if String.eqb (callerId c) uid then receiverId c else callerId c)
                         (userSockets st) with
         | Some h => [mkOut h "ice_candidate"
                       (VObj [("callId", VStr id); ("candidate", o); ("from", VStr uid)])]
         | None => [] end).
Proof.
  intros W H; split; [|split]; simpl;
    [unfold on_call_offer | unfold on_call_answer | unfold on_ice_candidate];
    signal_tac H; rewrite ro_emit_to_user, emit_to_user_exact by exact W; reflexivity.
Qed.

Lemma fst_play_cons st a now acts :
  fst (play st ((a, now) :: acts)) = fst (play (fst (run (act a now) st)) acts).
Proof.
  simpl. destruct (run (act a now) st) as [st1 o1]. simpl.
  destruct (play st1 acts); reflexivity.
Qed.

Lemma play_reachable st acts :
  reachable st -> play_ok st acts = true -> reachable (fst (play st acts)).
Proof.
  revert st; induction acts as [|[a now] acts IH]; intros st R Ok; [exact R|].
  rewrite fst_play_cons. simpl in Ok. apply andb_true_iff in Ok as [F Ok].
  apply IH; [apply reach_step|]; assumption.
Qed.

Lemma wf_st_ringing : wf st_ringing.
Proof.
  apply reachable_wf. unfold st_ringing.
  apply play_reachable; [|vm_compute; reflexivity].
  unfold st_AB. apply play_reachable; [apply reach_init | vm_compute; reflexivity].
Qed.

Lemma signaling_forwarding_witness :
  wf st_ringing /\ JSMap.get (call_id "A" "B" 6) (activeCalls st_ringing) =
    Some (mkCall "A" "B" Audio None 6) /\
  run (handle "sa" "A" 7 (ECallOffer (call_id "A" "B" 6) (VStr "sdp"))) st_ringing =
    (st_ringing, [mkOut "sb" "call_offer"
      (VObj [("callId", VStr (call_id "A" "B" 6)); ("offer", VStr "sdp"); ("callerId", VStr "A")])]).
Proof.
  assert (G : JSMap.get (call_id "A" "B" 6) (activeCalls st_ringing) =
              Some (mkCall "A" "B" Audio None 6)) by (vm_compute; reflexivity).
  split; [exact wf_st_ringing|]. split; [exact G|].
  rewrite (proj1 (signaling_forwarding st_ringing "sa" "A" 7 (call_id "A" "B" 6) _ (VStr "sdp")
                    wf_st_ringing G)).
  vm_compute. reflexivity.
Defined.

(** C5 fails as stated: when the receiver B sends [call_offer], the offer
    is not forwarded to the caller A but back to B's own connection. *)
Lemma offer_from_receiver_returns_to_receiver :
  snd (run (act (AEvent "sb" (ECallOffer (call_id "A" "B" 6) (VStr "sdp"))) 7) st_ringing)
  = [mkOut "sb" "call_offer"
       (VObj [("callId", VStr (call_id "A" "B" 6)); ("offer", VStr "sdp"); ("callerId", VStr "B")])].
Proof. vm_compute. reflexivity. Qed.

(** ** Message status *)

Lemma state_of_modify f st : state_of (modify f) st = f st.
Proof. reflexivity. Qed.

Lemma ro_notify_senders ids ev p : ro (notify_senders ids ev p).
Proof. unfold notify_senders. ro_tac; apply ro_emit_to_user. Qed.

Lemma mark_delivered_mono ids now m :
  m_id (mark_delivered ids now m) = m_id m /\
  status_rank (m_status m) <= status_rank (m_status (mark_delivered ids now m)).
Proof.
  unfold mark_delivered; destruct (in_ids ids m && status_eqb (m_status m) Sent) eqn:E;
    simpl; [|split; [reflexivity|lia]]. apply andb_true_iff in E as [_ E].
  destruct (m_status m); simpl in *; try discriminate; split; auto.
Qed.

Lemma mark_read_mono ids now m :
  m_id (mark_read ids now m) = m_id m /\
  status_rank (m_status m) <= status_rank (m_status (mark_read ids now m)).
Proof.
  unfold mark_read; destruct (in_ids ids m && negb (status_eqb (m_status m) Read));
    simpl; [|split; [reflexivity|lia]]. destruct (m_status m); simpl; split; auto.
Qed.

Lemma msgs_mono_refl l : msgs_mono l l.
Proof. induction l; constructor; auto. Qed.

Lemma msgs_mono_map f l :
  (forall m, m_id (f m) = m_id m /\ status_rank (m_status m) <= status_rank (m_status (f m))) ->
  msgs_mono l (map f l).
Proof.
  intros Hf; induction l as [|m l IH]; constructor; auto.
  destruct (Hf m); split; auto.
Qed.

Lemma msgs_mono_trans l1 l2 l3 : msgs_mono l1 l2 -> msgs_mono l2 l3 -> msgs_mono l1 l3.
Proof.
  intros H; revert l3; induction H as [|m1 m2 l1 l2 [E1 R1] _ IH]; intros l3 H'; [exact H'|].
  inversion H' as [|? m3 ? l3' [E2 R2] T]; subst. constructor; [split|apply IH; auto]; lia || congruence.
Qed.

Lemma status_act_step st a now :
  status_act a = true -> msgs_mono (db_messages (db st)) (db_messages (db (fst (run (act a now) st)))).
Proof.
  intros Ha. rewrite run_state_outs; simpl.
  destruct a as [| sid e |]; try discriminate.
  unfold act. rewrite state_of_bind, val_of_get, state_of_get.
  destruct (find_socket sid (sockets st)) as [s|]; [|apply msgs_mono_refl].
  destruct e; try discriminate; simpl;
    [unfold on_messages_delivered | unfold on_messages_read
    | unfold on_dm_messages_delivered | unfold on_dm_messages_read];
    rewrite ?state_of_bind, ?ro_notify_senders, ?state_of_modify;
    unfold modify_messages; rewrite ?state_of_modify; simpl;
    apply msgs_mono_map; intros m; auto using mark_delivered_mono, mark_read_mono.
Qed.

(** C3: along any sequence of [messages_delivered], [messages_read],
    [dm_messages_delivered] and [dm_messages_read] events, every stored
    message keeps its id and its status never moves back along
    [sent -> delivered -> read]; the delivered update leaves messages that
    are not [sent] untouched, the read update leaves [read] messages
    untouched, and a message moved to [read] gets a delivery time (the code
    writes [deliveredAt := now] whether or not one was set). *)
Theorem status_monotone st acts :
  forallb (fun p => status_act (fst p)) acts = true ->
  Forall2 (fun m m' => m_id m = m_id m' /\ status_rank (m_status m) <= status_rank (m_status m'))
    (db_messages (db st)) (db_messages (db (fst (play st acts))))
  /\ (forall ids now m, m_status m <> Sent -> mark_delivered ids now m = m)
  /\ (forall ids now m, m_status m = Read -> mark_read ids now m = m)
  /\ (forall ids now m, in_ids ids m = true -> m_status m <> Read ->
        m_status (mark_read ids now m) = Read /\ m_deliveredAt (mark_read ids now m) = Some now).
Proof.
  intros Hacts; split; [|split; [|split]].
  - change (msgs_mono (db_messages (db st)) (db_messages (db (fst (play st acts))))).
    revert st; induction acts as [|[a now] acts IH]; intros st; [apply msgs_mono_refl|].
    simpl in Hacts; apply andb_true_iff in Hacts as [Ha Hacts].
    rewrite fst_play_cons. eapply msgs_mono_trans; [apply status_act_step; exact Ha|].
    apply IH; exact Hacts.
  - intros ids now m H; unfold mark_delivered.
    destruct (m_status m); [congruence| |]; rewrite andb_false_r; reflexivity.
  - intros ids now m H; unfold mark_read; rewrite H, andb_false_r; reflexivity.
  - intros ids now m Hi H; unfold mark_read; rewrite Hi.
    destruct (m_status m); [| |congruence]; simpl; auto.
Qed.

Lemma status_monotone_witness :
  forallb (fun p => status_act (fst p))
    [(AEvent "sa" (EMessagesRead "general" ["m1"]), 5%Z);
     (AEvent "sa" (EMessagesDelivered "general" ["m1"; "m2"]), 6%Z)] = true /\
  Forall2 (fun m m' => m_id m = m_id m' /\ status_rank (m_status m) <= status_rank (m_status m'))
    (db_messages (db st_msgs))
    (db_messages (db (fst (play st_msgs
       [(AEvent "sa" (EMessagesRead "general" ["m1"]), 5%Z);
        (AEvent "sa" (EMessagesDelivered "general" ["m1"; "m2"]), 6%Z)])))).
Proof.
  split; [reflexivity|].
  refine (proj1 (status_monotone st_msgs _ _)). reflexivity.
Defined.

(** ** Status notifications *)

Lemma outs_of_modify f st : outs_of (modify f) st = [].
Proof. reflexivity. Qed.

Lemma notify_outs st ids ev p :
  wf st ->
  outs_of (notify_senders ids ev p) st =
  sender_notifications (userSockets st) ev p (filter (in_ids ids) (db_messages (db st))).
Proof.
  intros W. unfold notify_senders. rewrite outs_of_bind, val_of_get, state_of_get.
  rewrite outs_forM_ro by (intros; apply ro_emit_to_user). simpl.
  unfold sender_notifications. apply flat_map_ext. intros m.
  apply emit_to_user_exact; exact W.
Qed.

Lemma notifications_map us ev p ids f l :
  (forall m, m_id (f m) = m_id m) -> (forall m, m_senderId (f m) = m_senderId m) ->
  (forall m, p (f m) = p m) ->
  sender_notifications us ev p (filter (in_ids ids) (map f l)) =
  sender_notifications us ev p (filter (in_ids ids) l).
Proof.
  intros Hi Hs Hp; unfold sender_notifications.
  induction l as [|m l IH]; [reflexivity|]. simpl.
  assert (E : in_ids ids (f m) = in_ids ids m) by (unfold in_ids; rewrite Hi; reflexivity).
  rewrite E. destruct (in_ids ids m); simpl; rewrite ?Hs, ?Hp, IH; reflexivity.
Qed.

Lemma mark_delivered_keys ids now m :
  m_id (mark_delivered ids now m) = m_id m /\ m_senderId (mark_delivered ids now m) = m_senderId m.
Proof. unfold mark_delivered; destruct (_ && _); auto. Qed.

Lemma mark_read_keys ids now m :
  m_id (mark_read ids now m) = m_id m /\ m_senderId (mark_read ids now m) = m_senderId m.
Proof. unfold mark_read; destruct (_ && _); auto. Qed.

(** C8 (as the code has it): a [messages_delivered] or [messages_read]
    event notifies, in stored order, the sender of EVERY stored message
    whose id is listed, at the sender's registered connection, whether or
    not this update changed that message's status. *)
Theorem bulk_status_notifications st self uid now c ids :
  wf st ->
  snd (run (handle self uid now (EMessagesDelivered c ids)) st) =
    sender_notifications (userSockets st) "message_status_update"
      (fun m => VObj [("messageId", VStr (m_id m)); ("channelId", VStr c);
                      ("status", VStr "delivered"); ("deliveredAt", VNum now)])
      (filter (in_ids ids) (db_messages (db st)))
  /\ snd (run (handle self uid now (EMessagesRead c ids)) st) =
    sender_notifications (userSockets st) "message_status_update"
      (fun m => VObj [("messageId", VStr (m_id m)); ("channelId", VStr c);
                      ("status", VStr "read"); ("readAt", VNum now)])
      (filter (in_ids ids) (db_messages (db st))).
Proof.
  intros W; split; rewrite run_state_outs; simpl;
    [unfold on_messages_delivered | unfold on_messages_read]; unfold modify_messages;
    rewrite ?outs_of_bind, ?state_of_bind, ?outs_of_modify, ?state_of_modify; simpl;
    (rewrite notify_outs; [simpl; apply notifications_map; intros m; simpl|
       apply (wf_regs st); [reflexivity|exact W]]);
    first [apply mark_delivered_keys | apply mark_read_keys
          | rewrite (proj1 (mark_delivered_keys ids now m)); reflexivity
          | rewrite (proj1 (mark_read_keys ids now m)); reflexivity].
Qed.

Lemma wf_st_msgs : wf st_msgs.
Proof.
  apply reachable_wf. unfold st_msgs.
  apply play_reachable; [apply reach_init | vm_compute; reflexivity].
Qed.

Lemma bulk_status_notifications_witness :
  wf st_msgs /\
  snd (run (handle "sa" "A" 5 (EMessagesRead "general" ["m1"; "m2"])) st_msgs) =
    [mkOut "sb" "message_status_update"
       (VObj [("messageId", VStr "m1"); ("channelId", VStr "general");
              ("status", VStr "read"); ("readAt", VNum 5)]);
     mkOut "sb" "message_status_update"
       (VObj [("messageId", VStr "m2"); ("channelId", VStr "general");
              ("status", VStr "read"); ("readAt", VNum 5)])].
Proof.
  split; [exact wf_st_msgs|].
  rewrite (proj2 (bulk_status_notifications st_msgs "sa" "A" 5 "general" ["m1"; "m2"] wf_st_msgs)).
  vm_compute. reflexivity.
Defined.

(** C8 fails as stated: [m2] is already [read], so A's [messages_read]
    does not change it, yet its sender B (connected on [sb]) is notified. *)
Lemma read_of_read_message_notifies :
  (exists m, In m (db_messages (db st_msgs)) /\ m_id m = "m2" /\ m_status m = Read) /\
  db_messages (db (fst (run (act (AEvent "sa" (EMessagesRead "general" ["m2"])) 5) st_msgs))) =
    db_messages (db st_msgs) /\
  snd (run (act (AEvent "sa" (EMessagesRead "general" ["m2"])) 5) st_msgs) =
    [mkOut "sb" "message_status_update"
       (VObj [("messageId", VStr "m2"); ("channelId", VStr "general");
              ("status", VStr "read"); ("readAt", VNum 5)])].
Proof.
  split; [|vm_compute; split; reflexivity].
  eexists; split; [vm_compute; right; left; reflexivity | split; reflexivity].
Qed.

(** ** Joining rooms *)

Lemma filter_others_update room self f ss :
  filter (fun x => in_room room x && negb (String.eqb (s_id x) self)) (sock_update self f ss) =
  filter (fun x => in_room room x && negb (String.eqb (s_id x) self)) ss.
Proof.
  induction ss as [|x ss IH]; [reflexivity|]. simpl. rewrite IH.
  unfold upd; destruct (String.eqb (s_id x) self) eqn:E; simpl; rewrite ?E, ?andb_false_r;
    reflexivity.
Qed.

Lemma other_user_other_socket st s x :
  wf st -> In s (sockets st) -> In x (sockets st) -> s_user x <> s_user s -> s_id x <> s_id s.
Proof.
  intros W Hs Hx Hu E. apply Hu. f_equal.
  eapply nodup_same_id; [apply (wf_nodup _ _ _ _ W) | exact Hx | exact Hs | exact E].
Qed.

Lemma In_deliver_others room self ss x ev d :
  In x ss -> in_room room x = true -> s_id x <> self ->
  In (mkOut (s_id x) ev d)
     (deliver (filter (fun y => in_room room y && negb (String.eqb (s_id y) self)) ss) ev d).
Proof.
  intros Hx Hr Hn. unfold deliver. apply in_map_iff. exists x; split; [reflexivity|].
  apply filter_In; split; [exact Hx|]. rewrite Hr. apply String.eqb_neq in Hn. rewrite Hn.
  reflexivity.
Qed.

(** C6 (as the code has it): when connection [s] of user U joins channel
    [c] with its membership row present, U is added to [c]'s live set, every
    OTHER connection subscribed to [channel:c] gets [user_joined] (so every
    existing live member other than U is notified) and [s] itself gets only
    [joined_channel].  A DM join with its membership row present adds U to
    the DM's live set and sends only [joined_dm] to [s]: nobody is told of
    the join. *)
Theorem join_notifications st s c d now :
  wf st -> In s (sockets st) ->
  (find_member (db_channelMembers (db st)) c (s_user s) = true ->
   channelUsers (fst (run (handle (s_id s) (s_user s) now (EJoinChannel c)) st)) =
     track (s_user s) c (channelUsers st)
   /\ snd (run (handle (s_id s) (s_user s) now (EJoinChannel c)) st) =
     deliver (filter (fun x => in_room (channel_room c) x && negb (String.eqb (s_id x) (s_id s)))
                     (sockets st)) "user_joined"
             (VObj [("channelId", VStr c); ("userId", VStr (s_user s))])
     ++ [mkOut (s_id s) "joined_channel" (VObj [("channelId", VStr c)])]
   /\ (forall users v, JSMap.get c (channelUsers st) = Some users -> In v users ->
        v <> s_user s ->
        exists x, In x (sockets st) /\ s_user x = v /\
          In (mkOut (s_id x) "user_joined"
                (VObj [("channelId", VStr c); ("userId", VStr (s_user s))]))
             (snd (run (handle (s_id s) (s_user s) now (EJoinChannel c)) st))))
  /\ (find_member (db_dmMembers (db st)) d (s_user s) = true ->
   dmUsers (fst (run (handle (s_id s) (s_user s) now (EJoinDm d)) st)) =
     track (s_user s) d (dmUsers st)
   /\ snd (run (handle (s_id s) (s_user s) now (EJoinDm d)) st) =
     [mkOut (s_id s) "joined_dm" (VObj [("dmId", VStr d)])]).
Proof.
  intros W Hs. split; intros Hm.
  - assert (Eo : snd (run (handle (s_id s) (s_user s) now (EJoinChannel c)) st) =
       deliver (filter (fun x => in_room (channel_room c) x && negb (String.eqb (s_id x) (s_id s)))
                       (sockets st)) "user_joined"
               (VObj [("channelId", VStr c); ("userId", VStr (s_user s))])
       ++ [mkOut (s_id s) "joined_channel" (VObj [("channelId", VStr c)])]).
    { simpl. unfold run, on_join_channel, socket_join, socket_to, socket_emit, modify, get,
        out, bind, ret. simpl. rewrite Hm. simpl.
      rewrite filter_others_update, ?app_nil_r. reflexivity. }
    split; [|split; [exact Eo|]].
    + pose proof (regs_join_channel (s_id s) (s_user s) c st) as R.
      rewrite Hm in R. unfold regs in R. rewrite run_state_outs. simpl.
      inversion R; reflexivity.
    + intros users v G Hv Hn. apply get_In in G.
      destruct (wf_channels _ _ _ _ W c users v G Hv) as [x [Hx [Ux Rx]]].
      exists x; split; [exact Hx|]; split; [exact Ux|]. rewrite Eo. apply in_or_app; left.
      apply In_deliver_others; [exact Hx | exact Rx|].
      apply (other_user_other_socket st); auto. congruence.
  - split.
    + pose proof (regs_join_dm (s_id s) (s_user s) d st) as R.
      rewrite Hm in R. unfold regs in R. rewrite run_state_outs. simpl.
      inversion R; reflexivity.
    + simpl. unfold run, on_join_dm, socket_join, socket_emit, modify, get, out, bind, ret.
      simpl. rewrite Hm. reflexivity.
Qed.

Lemma wf_st_joined : wf st_joined.
Proof.
  apply reachable_wf. unfold st_joined.
  apply play_reachable; [|vm_compute; reflexivity].
  unfold st_AB. apply play_reachable; [apply reach_init | vm_compute; reflexivity].
Qed.

Lemma join_notifications_witness :
  wf st_joined /\ In (mkSock "sb" "B" ["user:B"]) (sockets st_joined) /\
  find_member (db_channelMembers (db st_joined)) "general" "B" = true /\
  find_member (db_dmMembers (db st_joined)) "d1" "B" = true /\
  snd (run (handle "sb" "B" 5 (EJoinChannel "general")) st_joined) =
    [mkOut "sa" "user_joined" (VObj [("channelId", VStr "general"); ("userId", VStr "B")]);
     mkOut "sb" "joined_channel" (VObj [("channelId", VStr "general")])].
Proof.
  assert (Hs : In (mkSock "sb" "B" ["user:B"]) (sockets st_joined))
    by (vm_compute; right; left; reflexivity).
  assert (Hm : find_member (db_channelMembers (db st_joined)) "general" "B" = true)
    by (vm_compute; reflexivity).
  split; [exact wf_st_joined|]. split; [exact Hs|]. split; [exact Hm|].
  split; [vm_compute; reflexivity|].
  pose proof (proj1 (proj2 (proj1 (join_notifications st_joined (mkSock "sb" "B" ["user:B"])
                                   "general" "d1" 5 wf_st_joined Hs) Hm))) as E.
  cbn [s_id s_user] in E. rewrite E. vm_compute. reflexivity.
Defined.

(** C6 fails for DMs: A is in the live set of [d1], but when B joins [d1]
    the only event sent is B's own [joined_dm]; A is not notified. *)
Lemma dm_join_notifies_nobody :
  JSMap.get "d1" (dmUsers st_joined) = Some ["A"] /\
  snd (run (act (AEvent "sb" (EJoinDm "d1")) 5) st_joined) =
    [mkOut "sb" "joined_dm" (VObj [("dmId", VStr "d1")])].
Proof. vm_compute. split; reflexivity. Qed.

(** ** Message relay *)

Lemma outs_socket_to self room ev d st :
  outs_of (socket_to self room ev d) st =
  deliver (filter (fun s => in_room room s && negb (String.eqb (s_id s) self)) (sockets st)) ev d.
Proof. reflexivity. Qed.

Lemma outs_get_bind {A} (k : State -> M A) st : outs_of (x <- get ;; k x) st = outs_of (k st) st.
Proof. rewrite outs_of_bind, val_of_get, state_of_get. reflexivity. Qed.

Lemma outs_socket_emit self ev d st : outs_of (socket_emit self ev d) st = [mkOut self ev d].
Proof. reflexivity. Qed.

Lemma ro_member_loop (ms : list string) (f : string -> M unit) :
  (forall v, ro (f v)) -> ro (forM_ ms f).
Proof. intros H. apply ro_forM. exact H. Qed.

Lemma outs_member_updates st ms sender ev d :
  wf st ->
  outs_of (forM_ ms (fun v => when (negb (String.eqb v sender)) (emit_to_user v ev d))) st =
  member_updates (userSockets st) sender ev d ms.
Proof.
  intros W. rewrite outs_forM_ro.
  - unfold member_updates. apply flat_map_ext; intros v.
    destruct (String.eqb v sender); simpl; [reflexivity|].
    apply emit_to_user_exact; exact W.
  - intros v; apply ro_when, ro_emit_to_user.
Qed.

Lemma relay_reaches st s x room ev d :
  wf st -> In s (sockets st) -> In x (sockets st) -> s_user x <> s_user s ->
  in_room room x = true ->
  In (mkOut (s_id x) ev d)
     (deliver (filter (fun y => in_room room y && negb (String.eqb (s_id y) (s_id s)))
                      (sockets st)) ev d).
Proof.
  intros W Hs Hx Hu Hr. apply In_deliver_others; auto.
  apply (other_user_other_socket st); auto.
Qed.

(** C4 (as the code has it): a [new_message] from connection [s] of user S
    in channel [c] is relayed with status [sent] to every OTHER connection
    subscribed to [channel:c] (so to every live member of [c] other than S,
    never to [s]).  Then, only if [c] has a live set, each live member
    other than S gets one [delivered] update at its own registered
    connection, and [s] gets exactly ONE [delivered] update, however many
    members are online.  [new_dm_message] does the same for the DM, and also
    sends [unread_update] to the user room of each other live member. *)
Theorem new_message_outputs st s c m now :
  wf st -> In s (sockets st) ->
  let D := VObj [("messageId", obj_get "id" m); ("channelId", VStr c);
                 ("status", VStr "delivered"); ("deliveredAt", VNum now)] in
  let DD := VObj [("messageId", obj_get "id" m); ("dmId", VStr c);
                  ("status", VStr "delivered"); ("deliveredAt", VNum now)] in
  let relay := deliver (filter (fun y => in_room (channel_room c) y
                                         && negb (String.eqb (s_id y) (s_id s))) (sockets st))
                 "new_message"
                 (VObj [("channelId", VStr c);
                        ("message", VObj (obj_set "status" (VStr "sent") m))]) in
  let relay_dm := deliver (filter (fun y => in_room (dm_room c) y
                                         && negb (String.eqb (s_id y) (s_id s))) (sockets st))
                 "new_dm_message"
                 (VObj [("dmId", VStr c); ("message", VObj (obj_set "status" (VStr "sent") m))]) in
  run (handle (s_id s) (s_user s) now (ENewMessage c m)) st =
    (st, relay ++
         match JSMap.get c (channelUsers st) with
         | None => []
         | Some members =>
             member_updates (userSockets st) (s_user s) "message_status_update" D members
             ++ [mkOut (s_id s) "message_status_update" D]
         end)
  /\ (forall users v, JSMap.get c (channelUsers st) = Some users -> In v users ->
       v <> s_user s ->
       exists x, In x (sockets st) /\ s_user x = v /\ s_id x <> s_id s /\
         In (mkOut (s_id x) "new_message"
               (VObj [("channelId", VStr c);
                      ("message", VObj (obj_set "status" (VStr "sent") m))])) relay)
  /\ run (handle (s_id s) (s_user s) now (ENewDmMessage c m)) st =
    (st, relay_dm ++
         match JSMap.get c (dmUsers st) with
         | None => []
         | Some members =>
             member_updates (userSockets st) (s_user s) "dm_message_status_update" DD members
             ++ [mkOut (s_id s) "dm_message_status_update" DD]
             ++ flat_map (fun v => if String.eqb v (s_user s) then []
                                   else deliver (filter (in_room (user_room v)) (sockets st))
                                          "unread_update"
                                          (VObj [("type", VStr "dm"); ("dmId", VStr c);
                                                 ("senderId", VStr (s_user s))]))
                         members
         end)
  /\ (forall users v, JSMap.get c (dmUsers st) = Some users -> In v users ->
       v <> s_user s ->
       exists x, In x (sockets st) /\ s_user x = v /\ s_id x <> s_id s /\
         In (mkOut (s_id x) "new_dm_message"
               (VObj [("dmId", VStr c); ("message", VObj (obj_set "status" (VStr "sent") m))]))
            relay_dm).
Proof.
  intros W Hs D DD relay relay_dm.
  split; [|split; [|split]].
  - rewrite run_state_outs; simpl; unfold on_new_message. f_equal.
    + rewrite state_of_bind, ro_socket_to, state_of_bind, state_of_get, val_of_get.
      destruct (JSMap.get c (channelUsers st)); [|reflexivity].
      rewrite state_of_bind, ro_socket_emit, ro_forM; [reflexivity|].
      intros v; apply ro_when, ro_emit_to_user.
    + rewrite outs_of_bind, outs_socket_to, ro_socket_to, outs_get_bind. f_equal.
      destruct (JSMap.get c (channelUsers st)) as [ms|]; [|reflexivity].
      rewrite outs_of_bind, outs_member_updates by exact W.
      rewrite ro_forM by (intros v; apply ro_when, ro_emit_to_user).
      rewrite outs_socket_emit. reflexivity.
  - intros users v G Hv Hn. apply get_In in G.
    destruct (wf_channels _ _ _ _ W c users v G Hv) as [x [Hx [Ux Rx]]].
    exists x; split; [exact Hx|]; split; [exact Ux|].
    split; [apply (other_user_other_socket st); auto; congruence|].
    apply relay_reaches; auto; congruence.
  - rewrite run_state_outs; simpl; unfold on_new_dm_message. f_equal.
    + rewrite state_of_bind, ro_socket_to, state_of_bind, state_of_get, val_of_get.
      destruct (JSMap.get c (dmUsers st)); [|reflexivity].
      rewrite !state_of_bind, ro_socket_emit, !ro_forM; [reflexivity| |];
        intros v; apply ro_when; first [apply ro_io_to | apply ro_emit_to_user].
    + rewrite outs_of_bind, outs_socket_to, ro_socket_to, outs_get_bind. f_equal.
      destruct (JSMap.get c (dmUsers st)) as [ms|]; [|reflexivity].
      rewrite outs_of_bind, outs_member_updates by exact W.
      rewrite ro_forM by (intros v; apply ro_when, ro_emit_to_user).
      rewrite outs_of_bind, outs_socket_emit, ro_socket_emit. f_equal. simpl. f_equal.
      rewrite outs_forM_ro by (intros v; apply ro_when, ro_io_to).
      apply flat_map_ext; intros v. destruct (String.eqb v (s_user s)); reflexivity.
  - intros users v G Hv Hn. apply get_In in G.
    destruct (wf_dms _ _ _ _ W c users v G Hv) as [x [Hx [Ux Rx]]].
    exists x; split; [exact Hx|]; split; [exact Ux|].
    split; [apply (other_user_other_socket st); auto; congruence|].
    apply relay_reaches; auto; congruence.
Qed.

Lemma new_message_outputs_witness :
  wf st_joined /\
  In (mkSock "sa" "A" ["user:A"; "channel:general"; "dm:d1"]) (sockets st_joined) /\
  run (handle "sa" "A" 5 (ENewMessage "general" [("id", VStr "m9"); ("text", VStr "hi")]))
      st_joined =
    (st_joined, [mkOut "sa" "message_status_update"
                   (VObj [("messageId", VStr "m9"); ("channelId", VStr "general");
                          ("status", VStr "delivered"); ("deliveredAt", VNum 5)])]).
Proof.
  assert (Hs : In (mkSock "sa" "A" ["user:A"; "channel:general"; "dm:d1"]) (sockets st_joined))
    by (vm_compute; left; reflexivity).
  split; [exact wf_st_joined|]. split; [exact Hs|].
  pose proof (new_message_outputs st_joined (mkSock "sa" "A" ["user:A"; "channel:general"; "dm:d1"])
                "general" [("id", VStr "m9"); ("text", VStr "hi")] 5 wf_st_joined Hs) as E.
  cbv zeta in E. destruct E as [E _]. cbn [s_id s_user] in E. rewrite E.
  vm_compute. reflexivity.
Defined.

(** C4 fails as stated: A is the only live member of [general], so there
    is no other online member, yet A's own [new_message] sends A one
    [delivered] update. *)
Lemma lone_sender_gets_delivered :
  JSMap.get "general" (channelUsers st_joined) = Some ["A"] /\
  snd (run (act (AEvent "sa" (ENewMessage "general" [("id", VStr "m9"); ("text", VStr "hi")])) 5)
           st_joined) =
    [mkOut "sa" "message_status_update"
       (VObj [("messageId", VStr "m9"); ("channelId", VStr "general");
              ("status", VStr "delivered"); ("deliveredAt", VNum 5)])].
Proof. vm_compute. split; reflexivity. Qed.

(** ** Disconnection *)

Lemma outs_ret {A} (a : A) st : outs_of (ret a) st = [].
Proof. reflexivity. Qed.

Lemma outs_leave_channels uid es st :
  outs_of (leave_channels uid es) st =
  flat_map (fun '(c, users) =>
              if JSSet.has uid users
              then deliver (filter (in_room (channel_room c)) (sockets st)) "user_left"
                     (VObj [("channelId", VStr c); ("userId", VStr uid)])
              else []) es.
Proof.
  induction es as [|[c users] es IH]; [reflexivity|]. simpl leave_channels.
  rewrite outs_of_bind; cbv beta; rewrite outs_of_bind, outs_ret, app_nil_r.
  assert (R : ro (if JSSet.has uid users
                  then io_to (channel_room c) "user_left"
                         (VObj [("channelId", VStr c); ("userId", VStr uid)])
                  else ret tt)) by (destruct (JSSet.has uid users); auto using ro_io_to, ro_ret).
  rewrite R, IH. simpl. destruct (JSSet.has uid users); reflexivity.
Qed.

Lemma outs_end_calls uid es st :
  wf st ->
  outs_of (end_calls uid es) st =
  flat_map (fun '(id, c) =>
              if involves uid c
              then match JSMap.get (other_party uid c) (userSockets st) with
                   | Some h => [mkOut h "call_ended"
                                  (VObj [("callId", VStr id); ("endedBy", VStr uid);
                                         ("reason", VStr "disconnected")])]
                   | None => [] end
              else []) es.
Proof.
  intros W. induction es as [|[id c] es IH]; [reflexivity|]. simpl end_calls.
  unfold involves at 1; simpl flat_map.
  destruct (String.eqb (callerId c) uid || String.eqb (receiverId c) uid).
  - rewrite outs_of_bind; cbv beta.
    rewrite ro_emit_to_user, emit_to_user_exact, IH by exact W. reflexivity.
  - rewrite outs_of_bind; cbv beta; rewrite outs_ret, app_nil_r, IH. reflexivity.
Qed.

Lemma outs_disconnect st s now :
  wf st -> In s (sockets st) ->
  outs_of (on_disconnect (s_id s) (s_user s) now) st =
  flat_map (fun '(c, users) =>
              if JSSet.has (s_user s) users
              then deliver (filter (in_room (channel_room c))
                                   (filter (fun x => negb (String.eqb (s_id x) (s_id s)))
                                           (sockets st))) "user_left"
                     (VObj [("channelId", VStr c); ("userId", VStr (s_user s))])
              else []) (channelUsers st)
  ++ flat_map (fun '(id, c) =>
              if involves (s_user s) c
              then match JSMap.get (other_party (s_user s) c)
                                   (JSMap.delete (s_user s) (userSockets st)) with
                   | Some h => [mkOut h "call_ended"
                                  (VObj [("callId", VStr id); ("endedBy", VStr (s_user s));
                                         ("reason", VStr "disconnected")])]
                   | None => [] end
              else []) (activeCalls st)
  ++ deliver (filter (fun x => negb (String.eqb (s_id x) (s_id s))) (sockets st))
       "user_presence"
       (VObj [("userId", VStr (s_user s)); ("status", VStr "offline"); ("lastActive", VNum now)]).
Proof.
  intros W Hs. unfold on_disconnect, set_online.
  repeat (rewrite ?outs_of_bind, ?state_of_bind, ?val_of_bind; cbv beta).
  rewrite ?outs_of_modify, ?state_of_modify, ?val_of_get, ?state_of_get, ?outs_get_bind.
  simpl.
  rewrite ?ro_leave_channels, ?ro_end_calls, ?val_leave_channels, ?val_end_calls.
  simpl. rewrite outs_leave_channels, outs_end_calls.
  - simpl. rewrite ?app_nil_r. reflexivity.
  - eapply wf_regs_eq; [reflexivity|].
    apply WF_disconnect; [exact W | exact Hs].
Qed.

Lemma state_disconnect st s now :
  channelUsers (state_of (on_disconnect (s_id s) (s_user s) now) st) =
    strip (s_user s) (channelUsers st)
  /\ dmUsers (state_of (on_disconnect (s_id s) (s_user s) now) st) =
    strip_dms (s_user s) (dmUsers st)
  /\ activeCalls (state_of (on_disconnect (s_id s) (s_user s) now) st) =
    filter (fun '(_, c) => negb (involves (s_user s) c)) (activeCalls st).
Proof.
  pose proof (regs_disconnect (s_id s) (s_user s) now st) as R.
  unfold regs in R. inversion R as [[E1 E2 E3 E4]]. rewrite E2, E3.
  split; [reflexivity|]; split; [reflexivity|].
  unfold on_disconnect, set_online.
  repeat (rewrite ?state_of_bind, ?val_of_bind; cbv beta).
  rewrite ?state_of_modify, ?val_of_get, ?state_of_get. simpl.
  rewrite ?ro_leave_channels, ?ro_end_calls, ?val_leave_channels, ?val_end_calls.
  reflexivity.
Qed.

(** C2 (as the code has it): when connection [s] of user U disconnects,
    U is removed from every channel and every DM live set and every call
    session involving U is deleted.  [user_left] is published only for
    CHANNELS: for each channel whose live set contained U, every connection
    still subscribed to [channel:c], including another connection of U,
    stays live and gets it (so every remaining live member does), and no [user_left] is sent for any DM.  For each deleted session
    whose other party is still registered, that party's connection gets
    [call_ended] with reason [disconnected]. *)
Theorem disconnect_teardown st s now :
  wf st -> In s (sockets st) ->
  (forall r users, In (r, users) (channelUsers (fst (run (on_disconnect (s_id s) (s_user s) now) st)))
     -> ~ In (s_user s) users)
  /\ (forall r users, In (r, users) (dmUsers (fst (run (on_disconnect (s_id s) (s_user s) now) st)))
     -> ~ In (s_user s) users)
  /\ (forall id c, In (id, c) (activeCalls (fst (run (on_disconnect (s_id s) (s_user s) now) st)))
     -> involves (s_user s) c = false)
  /\ (forall r users v, In (r, users) (channelUsers st) -> In (s_user s) users -> In v users ->
       v <> s_user s ->
       exists x, In x (sockets st) /\ s_user x = v /\
         In (mkOut (s_id x) "user_left"
               (VObj [("channelId", VStr r); ("userId", VStr (s_user s))]))
            (snd (run (on_disconnect (s_id s) (s_user s) now) st)))
  /\ (forall r users x, In (r, users) (channelUsers st) -> In (s_user s) users ->
       In x (sockets st) -> s_id x <> s_id s -> in_room (channel_room r) x = true ->
       In x (sockets (fst (run (on_disconnect (s_id s) (s_user s) now) st))) /\
       In (mkOut (s_id x) "user_left"
             (VObj [("channelId", VStr r); ("userId", VStr (s_user s))]))
          (snd (run (on_disconnect (s_id s) (s_user s) now) st)))
  /\ (forall o, In o (snd (run (on_disconnect (s_id s) (s_user s) now) st)) ->
       o_event o = "user_left" ->
       exists r users, In (r, users) (channelUsers st) /\ In (s_user s) users /\
         o_data o = VObj [("channelId", VStr r); ("userId", VStr (s_user s))])
  /\ (forall id c h, In (id, c) (activeCalls st) -> involves (s_user s) c = true ->
       other_party (s_user s) c <> s_user s ->
       JSMap.get (other_party (s_user s) c) (userSockets st) = Some h ->
       In (mkOut h "call_ended"
             (VObj [("callId", VStr id); ("endedBy", VStr (s_user s));
                    ("reason", VStr "disconnected")]))
          (snd (run (on_disconnect (s_id s) (s_user s) now) st))).
Proof.
  intros W Hs. rewrite !run_state_outs; simpl fst; simpl snd.
  destruct (state_disconnect st s now) as [E1 [E2 E3]].
  assert (E0 : sockets (state_of (on_disconnect (s_id s) (s_user s) now) st) =
               filter (fun x => negb (String.eqb (s_id x) (s_id s))) (sockets st)).
  { pose proof (regs_disconnect (s_id s) (s_user s) now st) as R.
    exact (f_equal (fun r => fst (fst (fst r))) R). }
  rewrite E0, E1, E2, E3, outs_disconnect by assumption.
  split; [|split; [|split; [|split; [|split; [|split]]]]].
  - intros r users H HU. unfold strip in H. apply in_map_iff in H as [[r0 u0] [E H]].
    inversion E as [[Er Eu]]; subst.
    destruct (JSSet.has (s_user s) u0) eqn:Hh.
    + apply In_set_delete in HU as [_ N]. congruence.
    + apply set_has in HU. congruence.
  - intros r users H HU. unfold strip_dms in H. apply in_map_iff in H as [[r0 u0] [E H]].
    inversion E; subst. apply In_set_delete in HU as [_ N]. congruence.
  - intros id c H. apply filter_In in H as [_ H]. apply negb_true_iff in H. exact H.
  - intros r users v Hr HU Hv Hn.
    destruct (wf_channels _ _ _ _ W r users v Hr Hv) as [x [Hx [Ux Rx]]].
    exists x; split; [exact Hx|]; split; [exact Ux|].
    apply in_or_app; left. apply in_flat_map. exists (r, users); split; [exact Hr|].
    rewrite (proj2 (set_has (s_user s) users) HU).
    apply in_map_iff. exists x; split; [reflexivity|].
    apply filter_In; split; [|exact Rx]. apply filter_In; split; [exact Hx|].
    apply negb_true_iff, String.eqb_neq.
    apply (other_user_other_socket st); auto. congruence.
  - intros r users x Hr HU Hx Hne Rx.
    assert (Hk : In x (filter (fun y => negb (String.eqb (s_id y) (s_id s))) (sockets st))).
    { apply filter_In; split; [exact Hx|]. apply negb_true_iff, String.eqb_neq, Hne. }
    split; [exact Hk|].
    apply in_or_app; left. apply in_flat_map. exists (r, users); split; [exact Hr|].
    rewrite (proj2 (set_has (s_user s) users) HU).
    apply in_map_iff. exists x; split; [reflexivity|].
    apply filter_In; split; [exact Hk|exact Rx].
  - intros o Ho Hev. apply in_app_or in Ho as [Ho|Ho]; [|apply in_app_or in Ho as [Ho|Ho]].
    + apply in_flat_map in Ho as [[r users] [Hr Ho]].
      destruct (JSSet.has (s_user s) users) eqn:Hh; [|contradiction].
      apply in_map_iff in Ho as [x [<- _]].
      exists r, users; split; [exact Hr|]; split; [apply set_has; exact Hh|reflexivity].
    + apply in_flat_map in Ho as [[id c] [_ Ho]].
      destruct (involves (s_user s) c); [|contradiction].
      destruct (JSMap.get _ _); [|contradiction].
      destruct Ho as [<-|[]]; discriminate.
    + apply in_map_iff in Ho as [x [<- _]]; discriminate.
  - intros id c h Hc Hi Ho Hg.
    apply in_or_app; right; apply in_or_app; left.
    apply in_flat_map. exists (id, c); split; [exact Hc|].
    rewrite Hi, get_delete_other, Hg by exact Ho. left; reflexivity.
Qed.

Lemma wf_st_all : wf st_all.
Proof.
  apply reachable_wf. unfold st_all.
  apply play_reachable; [|vm_compute; reflexivity].
  unfold st_joined. apply play_reachable; [|vm_compute; reflexivity].
  unfold st_AB. apply play_reachable; [apply reach_init | vm_compute; reflexivity].
Qed.

Lemma disconnect_teardown_witness :
  wf st_all /\
  In (mkSock "sb" "B" ["user:B"; "channel:general"; "dm:d1"]) (sockets st_all) /\
  In (mkOut "sa" "user_left" (VObj [("channelId", VStr "general"); ("userId", VStr "B")]))
     (snd (run (on_disconnect "sb" "B" 9) st_all)) /\
  In (mkOut "sa" "call_ended"
        (VObj [("callId", VStr (call_id "A" "B" 7)); ("endedBy", VStr "B");
               ("reason", VStr "disconnected")]))
     (snd (run (on_disconnect "sb" "B" 9) st_all)).
Proof.
  assert (Hs : In (mkSock "sb" "B" ["user:B"; "channel:general"; "dm:d1"]) (sockets st_all))
    by (vm_compute; right; left; reflexivity).
  split; [exact wf_st_all|]. split; [exact Hs|].
  pose proof (disconnect_teardown st_all _ 9 wf_st_all Hs) as T.
  destruct T as [_ [_ [_ [_ [L [_ T]]]]]]. cbn [s_id s_user] in T, L.
  split.
  - apply (proj2 (L "general" ["A"; "B"] (mkSock "sa" "A" ["user:A"; "channel:general"; "dm:d1"])
             ltac:(vm_compute; left; reflexivity) ltac:(vm_compute; right; left; reflexivity)
             ltac:(vm_compute; left; reflexivity) ltac:(discriminate)
             ltac:(vm_compute; reflexivity))).
  - apply (T (call_id "A" "B" 7) (mkCall "A" "B" Video None 7) "sa");
      [vm_compute; left; reflexivity | reflexivity | discriminate | vm_compute; reflexivity].
Defined.

(** C2 fails for DMs: B was in the live set of DM [d1] with A, yet B's
    disconnect sends A [user_left] only for channel [general]. *)
Lemma dm_leave_not_published :
  JSMap.get "d1" (dmUsers st_all) = Some ["A"; "B"] /\
  snd (run (act (ADisconnect "sb") 9) st_all) =
    [mkOut "sa" "user_left" (VObj [("channelId", VStr "general"); ("userId", VStr "B")]);
     mkOut "sa" "call_ended"
       (VObj [("callId", VStr "A-B-7"); ("endedBy", VStr "B"); ("reason", VStr "disconnected")]);
     mkOut "sa" "user_presence"
       (VObj [("userId", VStr "B"); ("status", VStr "offline"); ("lastActive", VNum 9)])].
Proof. vm_compute. split; reflexivity. Qed.

(** * Further properties of the handlers *)

(** ** Call sessions *)

Lemma get_set_other {V : Type} k k' (v : V) m :
  k' <> k -> JSMap.get k' (JSMap.set k v m) = JSMap.get k' m.
Proof.
  intros Hne. unfold JSMap.set. destruct (JSMap.has k m).
  - induction m as [|[a b] m IH]; simpl; [reflexivity|].
    destruct (String.eqb k a) eqn:E1; simpl; destruct (String.eqb k' a) eqn:E2;
      try reflexivity; try exact IH.
    apply String.eqb_eq in E1, E2. congruence.
  - induction m as [|[a b] m IH]; simpl.
    + destruct (String.eqb_spec k' k); [congruence|reflexivity].
    + destruct (String.eqb k' a); [reflexivity|exact IH].
Qed.

Lemma state_of_delete_call id st :
  state_of (delete_call id) st = set_activeCalls (JSMap.delete id (activeCalls st)) st.
Proof. reflexivity. Qed.

Lemma outs_delete_call id st : outs_of (delete_call id) st = [].
Proof. reflexivity. Qed.

(** [call_accept] on a live session tells the caller's registered
    connection (if any) and keeps the session: it is not removed or
    changed, and nothing else happens. *)
Theorem call_accept_existing st self uid now id c :
  wf st -> JSMap.get id (activeCalls st) = Some c ->
  run (handle self uid now (ECallAccept id)) st =
    (st, match JSMap.get (callerId c) (userSockets st) with
         | Some h => [mkOut h "call_accepted" (VObj [("callId", VStr id); ("acceptedBy", VStr uid)])]
         | None => [] end).
Proof.
  intros W H. simpl. unfold on_call_accept. signal_tac H.
  rewrite ro_emit_to_user, emit_to_user_exact by exact W. reflexivity.
Qed.

Lemma call_accept_existing_witness :
  wf st_ringing /\ JSMap.get (call_id "A" "B" 6) (activeCalls st_ringing) =
    Some (mkCall "A" "B" Audio None 6) /\
  run (handle "sb" "B" 7 (ECallAccept (call_id "A" "B" 6))) st_ringing =
    (st_ringing, [mkOut "sa" "call_accepted"
                    (VObj [("callId", VStr (call_id "A" "B" 6)); ("acceptedBy", VStr "B")])]).
Proof.
  assert (G : JSMap.get (call_id "A" "B" 6) (activeCalls st_ringing) =
              Some (mkCall "A" "B" Audio None 6)) by (vm_compute; reflexivity).
  split; [exact wf_st_ringing|]. split; [exact G|].
  rewrite (call_accept_existing st_ringing "sb" "B" 7 _ _ wf_st_ringing G).
  vm_compute. reflexivity.
Defined.

(** [call_reject] on a live session removes it and tells the caller's
    registered connection, with the given reason or "Call declined" when
    the reason is missing or empty. *)
Theorem call_reject_existing st self uid now id c reason :
  wf st -> JSMap.get id (activeCalls st) = Some c ->
  run (handle self uid now (ECallReject id reason)) st =
    (set_activeCalls (JSMap.delete id (activeCalls st)) st,
     match JSMap.get (callerId c) (userSockets st) with
     | Some h => [mkOut h "call_rejected"
                   (VObj [("callId", VStr id); ("rejectedBy", VStr uid);
                          ("reason", VStr (reason_or_default reason))])]
     | None => [] end)
  /\ JSMap.get id (activeCalls (fst (run (handle self uid now (ECallReject id reason)) st))) = None
  /\ (reason = None \/ reason = Some "" -> reason_or_default reason = "Call declined").
Proof.
  intros W H.
  assert (E : run (handle self uid now (ECallReject id reason)) st =
    (set_activeCalls (JSMap.delete id (activeCalls st)) st,
     match JSMap.get (callerId c) (userSockets st) with
     | Some h => [mkOut h "call_rejected"
                   (VObj [("callId", VStr id); ("rejectedBy", VStr uid);
                          ("reason", VStr (reason_or_default reason))])]
     | None => [] end)).
  { simpl. unfold on_call_reject. signal_tac H.
    rewrite state_of_bind, outs_of_bind, ro_emit_to_user, emit_to_user_exact by exact W.
    rewrite state_of_delete_call, outs_delete_call, app_nil_r. reflexivity. }
  split; [exact E|]. split; [rewrite E; apply get_delete_same|].
  intros [-> | ->]; reflexivity.
Qed.

Lemma call_reject_existing_witness :
  wf st_ringing /\ JSMap.get (call_id "A" "B" 6) (activeCalls st_ringing) =
    Some (mkCall "A" "B" Audio None 6) /\
  snd (run (handle "sb" "B" 7 (ECallReject (call_id "A" "B" 6) None)) st_ringing) =
    [mkOut "sa" "call_rejected"
       (VObj [("callId", VStr (call_id "A" "B" 6)); ("rejectedBy", VStr "B");
              ("reason", VStr "Call declined")])].
Proof.
  assert (G : JSMap.get (call_id "A" "B" 6) (activeCalls st_ringing) =
              Some (mkCall "A" "B" Audio None 6)) by (vm_compute; reflexivity).
  split; [exact wf_st_ringing|]. split; [exact G|].
  rewrite (proj1 (call_reject_existing st_ringing "sb" "B" 7 _ _ None wf_st_ringing G)).
  vm_compute. reflexivity.
Defined.

(** [call_end] on a live session removes it and tells the other party
    (the receiver when the caller ends it, otherwise the caller) at its
    registered connection. *)
Theorem call_end_existing st self uid now id c :
  wf st -> JSMap.get id (activeCalls st) = Some c ->
  run (handle self uid now (ECallEnd id)) st =
    (set_activeCalls (JSMap.delete id (activeCalls st)) st,
     match JSMap.get (if String.eqb (callerId c) uid then receiverId c else callerId c)
                     (userSockets st) with
     | Some h => [mkOut h "call_ended" (VObj [("callId", VStr id); ("endedBy", VStr uid)])]
     | None => [] end).
Proof.
  intros W H. simpl. unfold on_call_end. signal_tac H.
  rewrite state_of_bind, outs_of_bind, ro_emit_to_user, emit_to_user_exact by exact W.
  rewrite state_of_delete_call, outs_delete_call, app_nil_r. reflexivity.
Qed.

Lemma call_end_existing_witness :
  wf st_ringing /\ JSMap.get (call_id "A" "B" 6) (activeCalls st_ringing) =
    Some (mkCall "A" "B" Audio None 6) /\
  snd (run (handle "sa" "A" 7 (ECallEnd (call_id "A" "B" 6))) st_ringing) =
    [mkOut "sb" "call_ended" (VObj [("callId", VStr (call_id "A" "B" 6)); ("endedBy", VStr "A")])].
Proof.
  assert (G : JSMap.get (call_id "A" "B" 6) (activeCalls st_ringing) =
              Some (mkCall "A" "B" Audio None 6)) by (vm_compute; reflexivity).
  split; [exact wf_st_ringing|]. split; [exact G|].
  rewrite (call_end_existing st_ringing "sa" "A" 7 _ _ wf_st_ringing G).
  vm_compute. reflexivity.
Defined.

(** [call_toggle_media] on a live session is forwarded to the other party's
    registered connection and changes nothing. *)
Theorem call_toggle_media_existing st self uid now id c mt en :
  wf st -> JSMap.get id (activeCalls st) = Some c ->
  run (handle self uid now (ECallToggleMedia id mt en)) st =
    (st, match JSMap.get (if String.eqb (callerId c) uid then receiverId c else callerId c)
                         (userSockets st) with
         | Some h => [mkOut h "call_media_toggled"
                       (VObj [("callId", VStr id); ("userId", VStr uid);
                              ("mediaType", type_str mt); ("enabled", VBool en)])]
         | None => [] end).
Proof.
  intros W H. simpl. unfold on_call_toggle_media. signal_tac H.
  rewrite ro_emit_to_user, emit_to_user_exact by exact W. reflexivity.
Qed.

Lemma call_toggle_media_existing_witness :
  wf st_ringing /\ JSMap.get (call_id "A" "B" 6) (activeCalls st_ringing) =
    Some (mkCall "A" "B" Audio None 6) /\
  snd (run (handle "sb" "B" 7 (ECallToggleMedia (call_id "A" "B" 6) Video false)) st_ringing) =
    [mkOut "sa" "call_media_toggled"
       (VObj [("callId", VStr (call_id "A" "B" 6)); ("userId", VStr "B");
              ("mediaType", VStr "video"); ("enabled", VBool false)])].
Proof.
  assert (G : JSMap.get (call_id "A" "B" 6) (activeCalls st_ringing) =
              Some (mkCall "A" "B" Audio None 6)) by (vm_compute; reflexivity).
  split; [exact wf_st_ringing|]. split; [exact G|].
  rewrite (call_toggle_media_existing st_ringing "sb" "B" 7 _ _ Video false wf_st_ringing G).
  vm_compute. reflexivity.
Defined.

Lemma val_lookup_socket u st : val_of (lookup_socket u) st = JSMap.get u (userSockets st).
Proof. reflexivity. Qed.

Lemma state_lookup_socket u st : state_of (lookup_socket u) st = st.
Proof. reflexivity. Qed.

Lemma outs_lookup_socket u st : outs_of (lookup_socket u) st = [].
Proof. reflexivity. Qed.

Lemma registered_truthy st u h :
  wf st -> JSMap.get u (userSockets st) = Some h -> truthy (Some h) = true.
Proof.
  intros W G. apply get_In in G.
  destruct (wf_registered _ _ _ _ W u h G) as [x [Hx [<- _]]].
  unfold truthy. destruct (String.eqb_spec (s_id x) ""); [|reflexivity].
  exfalso; exact (wf_nonempty _ _ _ _ W x Hx e).
Qed.

(** [call_initiate] towards a registered receiver stores the session under
    [callerId-receiverId-now], sends [call_incoming] to the receiver's
    registered connection and then [call_initiated] to the caller's own
    connection. *)
Theorem call_initiate_online st self uid rcv type ch now h :
  wf st -> JSMap.get rcv (userSockets st) = Some h ->
  run (handle self uid now (ECallInitiate rcv type ch)) st =
    (set_activeCalls (JSMap.set (call_id uid rcv now) (mkCall uid rcv type ch now)
                                (activeCalls st)) st,
     [mkOut h "call_incoming"
        (VObj [("callId", VStr (call_id uid rcv now)); ("callerId", VStr uid);
               ("type", type_str type); ("channelId", str_of_opt ch)]);
      mkOut self "call_initiated"
        (VObj [("callId", VStr (call_id uid rcv now)); ("receiverId", VStr rcv);
               ("type", type_str type)])])
  /\ JSMap.get (call_id uid rcv now)
       (activeCalls (fst (run (handle self uid now (ECallInitiate rcv type ch)) st))) =
     Some (mkCall uid rcv type ch now).
Proof.
  intros W G.
  set (st1 := set_activeCalls (JSMap.set (call_id uid rcv now) (mkCall uid rcv type ch now)
                                         (activeCalls st)) st).
  assert (W1 : wf st1) by (apply (wf_regs st); [reflexivity|exact W]).
  assert (G1 : JSMap.get rcv (userSockets st1) = Some h) by exact G.
  assert (E : run (handle self uid now (ECallInitiate rcv type ch)) st =
    (st1,
     [mkOut h "call_incoming"
        (VObj [("callId", VStr (call_id uid rcv now)); ("callerId", VStr uid);
               ("type", type_str type); ("channelId", str_of_opt ch)]);
      mkOut self "call_initiated"
        (VObj [("callId", VStr (call_id uid rcv now)); ("receiverId", VStr rcv);
               ("type", type_str type)])])).
  { simpl. unfold on_call_initiate. rewrite run_state_outs.
    repeat (rewrite ?outs_of_bind, ?state_of_bind, ?val_of_bind; cbv beta).
    rewrite ?state_of_modify, ?outs_of_modify.
    fold st1. rewrite ?val_lookup_socket, ?state_lookup_socket, ?outs_lookup_socket, G1.
    rewrite (registered_truthy st1 rcv h W1 G1).
    rewrite ro_emit_to_user, emit_to_user_exact, G1 by exact W1. reflexivity. }
  split; [exact E|]. rewrite E. apply get_set_same.
Qed.

Lemma call_initiate_online_witness :
  wf st_AB /\ JSMap.get "B" (userSockets st_AB) = Some "sb" /\
  snd (run (handle "sa" "A" 6 (ECallInitiate "B" Video None)) st_AB) =
    [mkOut "sb" "call_incoming"
       (VObj [("callId", VStr "A-B-6"); ("callerId", VStr "A");
              ("type", VStr "video"); ("channelId", VUndef)]);
     mkOut "sa" "call_initiated"
       (VObj [("callId", VStr "A-B-6"); ("receiverId", VStr "B"); ("type", VStr "video")])].
Proof.
  assert (W : wf st_AB).
  { apply reachable_wf. unfold st_AB.
    apply play_reachable; [apply reach_init | vm_compute; reflexivity]. }
  assert (G : JSMap.get "B" (userSockets st_AB) = Some "sb") by (vm_compute; reflexivity).
  split; [exact W|]. split; [exact G|].
  rewrite (proj1 (call_initiate_online st_AB "sa" "A" "B" Video None 6 "sb" W G)).
  vm_compute. reflexivity.
Defined.

(** ** Rooms *)

Lemma fst_run {A} (m : M A) st : fst (run m st) = state_of m st.
Proof. rewrite run_state_outs; reflexivity. Qed.

Lemma snd_run {A} (m : M A) st : snd (run m st) = outs_of m st.
Proof. rewrite run_state_outs; reflexivity. Qed.

(** A [join_channel] or [join_dm] without a membership row changes nothing
    and answers only the joining connection with an [error] event. *)
Theorem join_refused st self uid now c d :
  (find_member (db_channelMembers (db st)) c uid = false ->
   run (handle self uid now (EJoinChannel c)) st =
     (st, [mkOut self "error" (VObj [("message", VStr "Not a member of this channel")])]))
  /\ (find_member (db_dmMembers (db st)) d uid = false ->
   run (handle self uid now (EJoinDm d)) st =
     (st, [mkOut self "error" (VObj [("message", VStr "Not a member of this DM")])])).
Proof.
  split; intros Hm; simpl;
    [unfold on_join_channel | unfold on_join_dm];
    unfold run, socket_emit, bind, get, out; simpl; rewrite Hm; reflexivity.
Qed.

Lemma join_refused_witness :
  find_member (db_channelMembers (db st_AB)) "random" "A" = false /\
  find_member (db_dmMembers (db st_AB)) "d2" "A" = false /\
  run (handle "sa" "A" 3 (EJoinChannel "random")) st_AB =
    (st_AB, [mkOut "sa" "error" (VObj [("message", VStr "Not a member of this channel")])]).
Proof.
  assert (H1 : find_member (db_channelMembers (db st_AB)) "random" "A" = false)
    by (vm_compute; reflexivity).
  assert (H2 : find_member (db_dmMembers (db st_AB)) "d2" "A" = false)
    by (vm_compute; reflexivity).
  split; [exact H1|]. split; [exact H2|].
  exact (proj1 (join_refused st_AB "sa" "A" 3 "random" "d2") H1).
Defined.

Lemma get_untrack_same uid c m :
  match JSMap.get c (untrack uid c m) with Some u => u | None => [] end =
  filter (fun y => negb (String.eqb uid y)) (match JSMap.get c m with Some u => u | None => [] end).
Proof.
  unfold untrack. destruct (JSMap.get c m) eqn:G; [|rewrite G; reflexivity].
  rewrite get_set_same. reflexivity.
Qed.

Lemma get_untrack_other uid c c' m :
  c' <> c -> JSMap.get c' (untrack uid c m) = JSMap.get c' m.
Proof.
  intros H. unfold untrack. destruct (JSMap.get c m); [|reflexivity].
  apply get_set_other; exact H.
Qed.

Lemma get_track_same uid c m :
  match JSMap.get c (track uid c m) with Some u => u | None => [] end =
  JSSet.add uid (match JSMap.get c m with Some u => u | None => [] end).
Proof. unfold track. rewrite get_set_same. reflexivity. Qed.

Lemma delete_add_fresh x s : ~ In x s -> JSSet.delete x (JSSet.add x s) = s.
Proof.
  intros H. unfold JSSet.add. destruct (JSSet.has x s) eqn:Hh.
  - apply set_has in Hh. contradiction.
  - unfold JSSet.delete. rewrite filter_app. simpl. rewrite String.eqb_refl. simpl.
    rewrite app_nil_r. rewrite (filter_ext_in _ (fun _ => true)); [apply filter_true|].
    intros y Hy. destruct (String.eqb_spec x y); [subst; contradiction|reflexivity].
Qed.

Lemma delete_is_filter x s : JSSet.delete x s = filter (fun y => negb (String.eqb x y)) s.
Proof. reflexivity. Qed.

Lemma not_in_room_deleted x room :
  s_id x <> room -> ~ In room (JSSet.delete room (s_rooms x)).
Proof. intros _ H. apply In_set_delete in H as [_ H]. apply H; reflexivity. Qed.

Lemma leave_online st self uid now c d :
  getOnlineChannelUsers (fst (run (handle self uid now (ELeaveChannel c)) st)) c =
    filter (fun v => negb (String.eqb uid v)) (getOnlineChannelUsers st c)
  /\ getOnlineDmUsers (fst (run (handle self uid now (ELeaveDm d)) st)) d =
    filter (fun v => negb (String.eqb uid v)) (getOnlineDmUsers st d).
Proof.
  rewrite !fst_run. unfold getOnlineChannelUsers, getOnlineDmUsers.
  split; apply get_untrack_same.
Qed.

(** [leave_channel] from connection [s] of user U: U is dropped from the
    channel's live set (which stays absent if there was none), other
    channels' live sets are untouched, [s] is unsubscribed from the
    channel's room, and [user_left] goes to every other connection in that
    room, whether or not U was in the live set.  [leave_dm] does the same
    for the DM but sends nothing. *)
Theorem leave_room_effects st self uid now c d :
  getOnlineChannelUsers (fst (run (handle self uid now (ELeaveChannel c)) st)) c =
    filter (fun v => negb (String.eqb uid v)) (getOnlineChannelUsers st c)
  /\ (forall c', c' <> c ->
       getOnlineChannelUsers (fst (run (handle self uid now (ELeaveChannel c)) st)) c' =
       getOnlineChannelUsers st c')
  /\ (forall x, In x (sockets (fst (run (handle self uid now (ELeaveChannel c)) st))) ->
       s_id x = self -> ~ In (channel_room c) (s_rooms x))
  /\ snd (run (handle self uid now (ELeaveChannel c)) st) =
     deliver (filter (fun y => in_room (channel_room c) y && negb (String.eqb (s_id y) self))
                     (sockets st)) "user_left"
             (VObj [("channelId", VStr c); ("userId", VStr uid)])
  /\ getOnlineDmUsers (fst (run (handle self uid now (ELeaveDm d)) st)) d =
    filter (fun v => negb (String.eqb uid v)) (getOnlineDmUsers st d)
  /\ (forall d', d' <> d ->
       getOnlineDmUsers (fst (run (handle self uid now (ELeaveDm d)) st)) d' =
       getOnlineDmUsers st d')
  /\ (forall x, In x (sockets (fst (run (handle self uid now (ELeaveDm d)) st))) ->
       s_id x = self -> ~ In (dm_room d) (s_rooms x))
  /\ snd (run (handle self uid now (ELeaveDm d)) st) = [].
Proof.
  rewrite !fst_run, !snd_run.
  change (handle self uid now (ELeaveChannel c)) with (on_leave_channel self uid c).
  change (handle self uid now (ELeaveDm d)) with (on_leave_dm self uid d).
  assert (S1 : sockets (state_of (on_leave_channel self uid c) st) =
               sock_update self (JSSet.delete (channel_room c)) (sockets st)) by reflexivity.
  assert (C1 : channelUsers (state_of (on_leave_channel self uid c) st) =
               untrack uid c (channelUsers st)) by reflexivity.
  assert (S2 : sockets (state_of (on_leave_dm self uid d) st) =
               sock_update self (JSSet.delete (dm_room d)) (sockets st)) by reflexivity.
  assert (D2 : dmUsers (state_of (on_leave_dm self uid d) st) =
               untrack uid d (dmUsers st)) by reflexivity.
  unfold getOnlineChannelUsers, getOnlineDmUsers.
  rewrite C1, S1, D2, S2.
  split; [apply (proj1 (leave_online st self uid now c d))|].
  split; [intros c' H; rewrite get_untrack_other by exact H; reflexivity|].
  split.
  { intros x Hx E. apply In_sock_update_inv in Hx as [y [_ ->]].
    unfold upd in *. destruct (String.eqb_spec (s_id y) self); [|contradiction].
    simpl. intros H. apply In_set_delete in H as [_ H]. apply H; reflexivity. }
  split.
  { unfold outs_of, on_leave_channel, socket_leave, socket_to, modify, get, out, bind, ret.
    simpl. rewrite filter_others_update. reflexivity. }
  split; [apply get_untrack_same|].
  split; [intros d' H; rewrite get_untrack_other by exact H; reflexivity|].
  split; [|unfold outs_of; reflexivity].
  intros x Hx E. apply In_sock_update_inv in Hx as [y [_ ->]].
  unfold upd in *. destruct (String.eqb_spec (s_id y) self); [|contradiction].
  simpl. intros H. apply In_set_delete in H as [_ H]. apply H; reflexivity.
Qed.

(** Joining a channel (or DM) the user is not live in and leaving it again
    from the same connection gives back the room's live set. *)
Theorem join_leave_round_trip st self uid n1 n2 c d :
  (~ In uid (getOnlineChannelUsers st c) ->
   getOnlineChannelUsers
     (fst (run (handle self uid n2 (ELeaveChannel c))
               (fst (run (handle self uid n1 (EJoinChannel c)) st)))) c =
   getOnlineChannelUsers st c)
  /\ (~ In uid (getOnlineDmUsers st d) ->
   getOnlineDmUsers
     (fst (run (handle self uid n2 (ELeaveDm d))
               (fst (run (handle self uid n1 (EJoinDm d)) st)))) d =
   getOnlineDmUsers st d).
Proof.
  split; intros Hn.
  - rewrite (proj1 (leave_online _ self uid n2 c d)).
    pose proof (regs_join_channel self uid c st) as R. rewrite !fst_run.
    change (handle self uid n1 (EJoinChannel c)) with (on_join_channel self uid c).
    unfold regs in R. unfold getOnlineChannelUsers in *.
    destruct (find_member _ c uid); injection R as S1 C1 D1 U1; rewrite C1.
    + rewrite get_track_same, <- delete_is_filter. apply delete_add_fresh, Hn.
    + rewrite <- delete_is_filter. unfold JSSet.delete.
      rewrite (filter_ext_in _ (fun _ => true)); [apply filter_true|].
      intros y Hy. destruct (String.eqb_spec uid y); [subst; contradiction|reflexivity].
  - rewrite (proj2 (leave_online _ self uid n2 c d)).
    pose proof (regs_join_dm self uid d st) as R. rewrite !fst_run.
    change (handle self uid n1 (EJoinDm d)) with (on_join_dm self uid d).
    unfold regs in R. unfold getOnlineDmUsers in *.
    destruct (find_member _ d uid); injection R as S1 C1 D1 U1; rewrite D1.
    + rewrite get_track_same, <- delete_is_filter. apply delete_add_fresh, Hn.
    + rewrite <- delete_is_filter. unfold JSSet.delete.
      rewrite (filter_ext_in _ (fun _ => true)); [apply filter_true|].
      intros y Hy. destruct (String.eqb_spec uid y); [subst; contradiction|reflexivity].
Qed.

Lemma join_leave_round_trip_witness :
  ~ In "B" (getOnlineChannelUsers st_joined "general") /\
  ~ In "B" (getOnlineDmUsers st_joined "d1") /\
  getOnlineChannelUsers
    (fst (run (handle "sb" "B" 6 (ELeaveChannel "general"))
              (fst (run (handle "sb" "B" 5 (EJoinChannel "general")) st_joined)))) "general" =
  ["A"].
Proof.
  assert (H1 : ~ In "B" (getOnlineChannelUsers st_joined "general")).
  { vm_compute. intros [H|[]]; discriminate. }
  assert (H2 : ~ In "B" (getOnlineDmUsers st_joined "d1")).
  { vm_compute. intros [H|[]]; discriminate. }
  split; [exact H1|]. split; [exact H2|].
  rewrite (proj1 (join_leave_round_trip st_joined "sb" "B" 5 6 "general" "d1") H1).
  vm_compute. reflexivity.
Defined.

(** Typing indicators, edits, deletions and reactions change nothing and
    go to every connection subscribed to the room except the sender's. *)
Theorem relay_events st self uid now e room :
  relay_room e = Some room ->
  exists ev d, run (handle self uid now e) st =
    (st, deliver (filter (fun y => in_room room y && negb (String.eqb (s_id y) self))
                         (sockets st)) ev d).
Proof.
  intros H. destruct e; simpl in H; try discriminate; inversion H; subst; simpl;
    unfold on_relay; eexists; eexists; rewrite run_state_outs, ro_socket_to, outs_socket_to;
    reflexivity.
Qed.

Lemma relay_events_witness :
  relay_room (ETyping "general" true) = Some "channel:general" /\
  exists ev d, run (handle "sa" "A" 5 (ETyping "general" true)) st_all =
    (st_all, deliver (filter (fun y => in_room "channel:general" y
                                        && negb (String.eqb (s_id y) "sa"))
                             (sockets st_all)) ev d).
Proof.
  split; [reflexivity|].
  exact (relay_events st_all "sa" "A" 5 (ETyping "general" true) "channel:general" eq_refl).
Defined.

(** ** Read markers *)

Lemma touch_last_read_rows uid room now rows :
  Forall2 (fun r r' => mb_roomId r' = mb_roomId r /\ mb_userId r' = mb_userId r /\
             mb_lastReadAt r' =
               if String.eqb (mb_roomId r) room && String.eqb (mb_userId r) uid
               then Some now else mb_lastReadAt r)
    rows (touch_last_read uid room now rows).
Proof.
  induction rows as [|r rows IH]; simpl; constructor; [|exact IH].
  match goal with |- context [if ?b then _ else _] => destruct b end; simpl; auto.
Qed.

(** [messages_read] sets [lastReadAt := now] on exactly the reader's
    membership row of that channel, keeps every other channel row and all
    DM rows as they were; [dm_messages_read] does the same on the DM rows.
    The [delivered] events touch no membership row. *)
Theorem read_markers st self uid now room ids :
  Forall2 (fun r r' => mb_roomId r' = mb_roomId r /\ mb_userId r' = mb_userId r /\
             mb_lastReadAt r' =
               if String.eqb (mb_roomId r) room && String.eqb (mb_userId r) uid
               then Some now else mb_lastReadAt r)
    (db_channelMembers (db st))
    (db_channelMembers (db (fst (run (handle self uid now (EMessagesRead room ids)) st))))
  /\ db_dmMembers (db (fst (run (handle self uid now (EMessagesRead room ids)) st))) =
     db_dmMembers (db st)
  /\ Forall2 (fun r r' => mb_roomId r' = mb_roomId r /\ mb_userId r' = mb_userId r /\
             mb_lastReadAt r' =
               if String.eqb (mb_roomId r) room && String.eqb (mb_userId r) uid
               then Some now else mb_lastReadAt r)
    (db_dmMembers (db st))
    (db_dmMembers (db (fst (run (handle self uid now (EDmMessagesRead room ids)) st))))
  /\ db_channelMembers (db (fst (run (handle self uid now (EDmMessagesRead room ids)) st))) =
     db_channelMembers (db st)
  /\ (forall e, e = EMessagesDelivered room ids \/ e = EDmMessagesDelivered room ids ->
       db_channelMembers (db (fst (run (handle self uid now e) st))) = db_channelMembers (db st)
       /\ db_dmMembers (db (fst (run (handle self uid now e) st))) = db_dmMembers (db st)).
Proof.
  rewrite !fst_run. simpl handle.
  unfold on_messages_read, on_dm_messages_read, on_messages_delivered, on_dm_messages_delivered,
    modify_messages.
  repeat (rewrite ?state_of_bind; cbv beta). rewrite ?ro_notify_senders, ?state_of_modify.
  simpl. split; [apply touch_last_read_rows|]. split; [reflexivity|].
  split; [apply touch_last_read_rows|]. split; [reflexivity|].
  intros e [-> | ->]; simpl; unfold on_messages_delivered, on_dm_messages_delivered, modify_messages;
    rewrite fst_run, state_of_bind, ro_notify_senders, state_of_modify; split; reflexivity.
Qed.

(** ** User rooms *)

Lemma user_room_inj u u' : user_room u = user_room u' -> u = u'.
Proof.
  unfold user_room; intros H.
  do 5 (apply (f_equal (fun s => match s with String _ t => t | EmptyString => s end)) in H;
        simpl in H).
  exact H.
Qed.

Lemma channel_user_room c u : channel_room c <> user_room u.
Proof. unfold channel_room, user_room; simpl; discriminate. Qed.

Lemma dm_user_room d u : dm_room d <> user_room u.
Proof. unfold dm_room, user_room; simpl; discriminate. Qed.

Lemma user_rooms_update self f ss :
  user_rooms_ok ss ->
  (forall rs u, In (user_room u) (f rs) <-> In (user_room u) rs) ->
  user_rooms_ok (sock_update self f ss).
Proof.
  intros H Hf s u Hs. apply In_sock_update_inv in Hs as [s0 [Hs0 ->]].
  rewrite upd_user. unfold upd. destruct (String.eqb _ _); simpl; [rewrite Hf|]; auto.
Qed.

Lemma add_other_room r (Hr : forall u, r <> user_room u) rs u :
  In (user_room u) (JSSet.add r rs) <-> In (user_room u) rs.
Proof.
  rewrite In_set_add. split; [intros [E|]; [exfalso; exact (Hr u (eq_sym E))|]|]; auto.
Qed.

Lemma delete_other_room r (Hr : forall u, r <> user_room u) rs u :
  In (user_room u) (JSSet.delete r rs) <-> In (user_room u) rs.
Proof.
  rewrite In_set_delete. split; [intros [? _]; auto|].
  intros H; split; [exact H|]. intros E; exact (Hr u (eq_sym E)).
Qed.

Lemma user_rooms_connect ss sid uid :
  user_rooms_ok ss -> ~ In sid (map s_id ss) ->
  user_rooms_ok (sock_update sid (JSSet.add (user_room uid)) (ss ++ [mkSock sid uid []])).
Proof.
  intros H Hfresh s u Hs. apply In_sock_update_inv in Hs as [s0 [Hs0 ->]].
  apply in_app_or in Hs0 as [Hs0|[<-|[]]].
  - rewrite upd_other; [auto|]. intros E; apply Hfresh; rewrite <- E; apply in_map, Hs0.
  - unfold upd; simpl; rewrite String.eqb_refl; simpl.
    split; [intros [E|[]]; apply user_room_inj; auto | intros ->; left; reflexivity].
Qed.

Lemma user_rooms_filter p ss : user_rooms_ok ss -> user_rooms_ok (filter p ss).
Proof. intros H s u Hs. apply filter_In in Hs as [Hs _]; auto. Qed.

Lemma user_rooms_regs st' ss cu du us :
  regs st' = (ss, cu, du, us) -> user_rooms_ok ss -> user_rooms_ok (sockets st').
Proof. unfold regs; intros E; inversion E; subst; auto. Qed.

Lemma user_rooms_keep st st' :
  regs st' = regs st -> user_rooms_ok (sockets st) -> user_rooms_ok (sockets st').
Proof. unfold regs; intros E; inversion E as [[E1 E2 E3 E4]]; rewrite E1; auto. Qed.

Lemma reachable_user_rooms st : reachable st -> user_rooms_ok (sockets st).
Proof.
  induction 1 as [d|st a now Hr IH Hf]; [intros s u []|].
  rewrite run_state_outs; simpl.
  destruct a as [sid uid|sid e|sid]; simpl in Hf |- *.
  - apply andb_true_iff in Hf as [Hf _]. apply andb_true_iff in Hf as [_ H2].
    apply negb_true_iff in H2.
    eapply user_rooms_regs; [apply regs_connect|].
    apply user_rooms_connect; [exact IH|].
    intros Hin; apply in_map_iff in Hin as [x [Ex Hx]].
    assert (existsb (fun s => String.eqb (s_id s) sid) (sockets st) = true)
      by (apply existsb_exists; exists x; split; [exact Hx | apply String.eqb_eq, Ex]).
    congruence.
  - rewrite state_of_bind, val_of_get, state_of_get.
    destruct (find_socket sid (sockets st)) as [s|] eqn:F; [|exact IH].
    destruct (room_event e) eqn:Hre.
    + destruct e; try discriminate; cbn [handle].
      * pose proof (regs_join_channel sid (s_user s) channelId st) as E.
        destruct (find_member _ _ _); [|exact (user_rooms_keep _ _ E IH)].
        eapply user_rooms_regs; [exact E|].
        apply user_rooms_update; [exact IH|apply add_other_room, channel_user_room].
      * eapply user_rooms_regs; [exact (regs_leave_channel sid (s_user s) channelId st)|].
        apply user_rooms_update; [exact IH|apply delete_other_room, channel_user_room].
      * pose proof (regs_join_dm sid (s_user s) dmId st) as E.
        destruct (find_member _ _ _); [|exact (user_rooms_keep _ _ E IH)].
        eapply user_rooms_regs; [exact E|].
        apply user_rooms_update; [exact IH|apply add_other_room, dm_user_room].
      * eapply user_rooms_regs; [exact (regs_leave_dm sid (s_user s) dmId st)|].
        apply user_rooms_update; [exact IH|apply delete_other_room, dm_user_room].
    + exact (user_rooms_keep _ _ (handle_keeps sid (s_user s) now e Hre st) IH).
  - rewrite state_of_bind, val_of_get, state_of_get.
    destruct (find_socket sid (sockets st)) as [s|] eqn:F; [|exact IH].
    eapply user_rooms_regs; [exact (regs_disconnect sid (s_user s) now st)|].
    apply user_rooms_filter, IH.
Qed.

Lemma reachable_st_all : reachable st_all.
Proof.
  unfold st_all. apply play_reachable; [|vm_compute; reflexivity].
  unfold st_joined. apply play_reachable; [|vm_compute; reflexivity].
  unfold st_AB. apply play_reachable; [apply reach_init | vm_compute; reflexivity].
Qed.

(** On every reachable server state, [broadcastToUser u] leaves the state
    as it is and reaches exactly the live connections of user [u], each
    once, in connection order. *)
Theorem broadcast_to_user_exact st u ev d :
  reachable st ->
  run (broadcastToUser u ev d) st =
  (st, deliver (filter (fun s => String.eqb (s_user s) u) (sockets st)) ev d).
Proof.
  intros R. pose proof (reachable_user_rooms st R) as HU.
  pose proof (wf_ids _ _ _ _ (reachable_wf st R)) as HI.
  unfold broadcastToUser. rewrite run_state_outs, ro_io_to. f_equal.
  change (outs_of (io_to (user_room u) ev d) st)
    with (deliver (filter (in_room (user_room u)) (sockets st)) ev d).
  f_equal. apply filter_ext_in. intros s Hs. unfold in_room.
  assert (Hid : String.eqb (s_id s) (user_room u) = false).
  { apply String.eqb_neq; intros E. pose proof (HI s Hs) as C.
    rewrite E, colon_user in C; discriminate. }
  rewrite Hid, orb_false_l.
  destruct (String.eqb_spec (s_user s) u) as [<-|Hne].
  - apply existsb_exists. exists (user_room (s_user s)).
    split; [apply (HU s (s_user s) Hs); reflexivity | apply String.eqb_refl].
  - apply not_true_iff_false; intros Hx. apply existsb_exists in Hx as [r [Hr Er]].
    apply String.eqb_eq in Er; subst r. apply (HU s u Hs) in Hr. congruence.
Qed.

Lemma broadcast_to_user_exact_witness :
  reachable st_all /\
  run (broadcastToUser "B" "ping" VNull) st_all =
  (st_all, deliver (filter (fun s => String.eqb (s_user s) "B") (sockets st_all)) "ping" VNull).
Proof.
  split; [exact reachable_st_all | apply (broadcast_to_user_exact st_all "B" "ping" VNull reachable_st_all)].
Defined.

(** ** Channel and DM broadcasts *)

Lemma outs_io_to room ev d st :
  outs_of (io_to room ev d) st = deliver (filter (in_room room) (sockets st)) ev d.
Proof. reflexivity. Qed.

Lemma live_reached room m ss r v ev d :
  live_ok room m ss -> In v (match JSMap.get r m with Some u => u | None => [] end) ->
  exists s, In s ss /\ s_user s = v /\
    In (mkOut (s_id s) ev d) (deliver (filter (in_room (room r)) ss) ev d).
Proof.
  intros H Hv. destruct (JSMap.get r m) as [us|] eqn:G; [|destruct Hv].
  destruct (H r us v (get_In _ _ _ G) Hv) as [s [Hs [Hu Hr]]].
  exists s; split; [exact Hs|split; [exact Hu|]].
  apply (in_map (fun s => mkOut (s_id s) ev d)), filter_In; auto.
Qed.

(** On every reachable server state, [broadcastToChannel c] leaves the
    state as it is and reaches at least one live connection of every user
    that [getOnlineChannelUsers c] lists; likewise [broadcastToDm] for
    [getOnlineDmUsers]. *)
Theorem broadcast_covers_online st ev d c v :
  reachable st ->
  (fst (run (broadcastToChannel c ev d) st) = st /\
   (In v (getOnlineChannelUsers st c) ->
    exists s, In s (sockets st) /\ s_user s = v /\
      In (mkOut (s_id s) ev d) (snd (run (broadcastToChannel c ev d) st)))) /\
  (fst (run (broadcastToDm c ev d) st) = st /\
   (In v (getOnlineDmUsers st c) ->
    exists s, In s (sockets st) /\ s_user s = v /\
      In (mkOut (s_id s) ev d) (snd (run (broadcastToDm c ev d) st)))).
Proof.
  intros R. pose proof (reachable_wf st R) as W.
  unfold broadcastToChannel, broadcastToDm.
  rewrite !fst_run, !snd_run, !ro_io_to, !outs_io_to.
  split; split; [reflexivity| |reflexivity|]; intros Hv.
  - exact (live_reached channel_room _ _ c v ev d (wf_channels _ _ _ _ W) Hv).
  - exact (live_reached dm_room _ _ c v ev d (wf_dms _ _ _ _ W) Hv).
Qed.

Lemma broadcast_covers_online_witness :
  reachable st_all /\
  ((fst (run (broadcastToChannel "general" "ping" VNull) st_all) = st_all /\
    (In "B" (getOnlineChannelUsers st_all "general") ->
     exists s, In s (sockets st_all) /\ s_user s = "B" /\
       In (mkOut (s_id s) "ping" VNull) (snd (run (broadcastToChannel "general" "ping" VNull) st_all)))) /\
   (fst (run (broadcastToDm "general" "ping" VNull) st_all) = st_all /\
    (In "B" (getOnlineDmUsers st_all "general") ->
     exists s, In s (sockets st_all) /\ s_user s = "B" /\
       In (mkOut (s_id s) "ping" VNull) (snd (run (broadcastToDm "general" "ping" VNull) st_all))))).
Proof.
  split; [exact reachable_st_all | exact (broadcast_covers_online st_all "ping" VNull "general" "B" reachable_st_all)].
Defined.

(** ** Connection *)

Lemma deliver_pending_frame uid rows room ev key now st :
  exists ms, state_of (deliver_pending uid rows room ev key now) st =
    set_db (mkDB (db_users (db st)) (db_channelMembers (db st)) (db_dmMembers (db st)) ms) st.
Proof.
  unfold deliver_pending. rewrite state_of_bind, val_of_get, state_of_get.
  destruct (negb _); simpl when.
  - destruct (negb _); simpl when.
    + unfold modify_messages. rewrite state_of_bind, state_of_modify.
      rewrite ro_forM by (intros; apply ro_emit_to_user). eexists; reflexivity.
    + exists (db_messages (db st)). destruct st as [? ? ? ? ? []]; reflexivity.
  - exists (db_messages (db st)). destruct st as [? ? ? ? ? []]; reflexivity.
Qed.

Lemma state_connect sid uid now st :
  exists ms, state_of (on_connect sid uid now) st =
    mkState (sock_update sid (JSSet.add (user_room uid)) (sockets st ++ [mkSock sid uid []]))
      (channelUsers st) (dmUsers st) (JSMap.set uid sid (userSockets st)) (activeCalls st)
      (mkDB (map (fun u => if String.eqb (u_id u) uid then mkUserRow (u_id u) true now else u)
                 (db_users (db st)))
            (db_channelMembers (db st)) (db_dmMembers (db st)) ms).
Proof.
  unfold on_connect. rewrite !state_of_bind.
  repeat match goal with
  | |- context [state_of (deliver_pending ?u ?r ?m ?e ?k ?n) ?s] =>
      let ms := fresh "ms" in let E := fresh "E" in
      destruct (deliver_pending_frame u r m e k n s) as [ms E]; rewrite E
  end.
  rewrite (ro_io_emit _ _ _). eexists. reflexivity.
Qed.

Lemma outs_connect sid uid now st :
  exists rest, outs_of (on_connect sid uid now) st =
    deliver (sock_update sid (JSSet.add (user_room uid)) (sockets st ++ [mkSock sid uid []]))
      "user_presence"
      (VObj [("userId", VStr uid); ("status", VStr "online"); ("lastActive", VNum now)])
    ++ rest.
Proof.
  unfold on_connect. rewrite !outs_of_bind, !outs_of_modify.
  unfold socket_join, set_online. rewrite !outs_of_modify. cbn [app].
  match goal with |- exists r, ?a ++ ?b = _ => exists b end.
  f_equal.
Qed.

(** [io.on('connection')] registers the new socket as the user's socket
    (other users' entries kept), makes [isUserOnline] true, sets the user's
    row online with [lastActive = now], leaves the live room sets, the call
    sessions and the membership tables as they were, and first emits
    [user_presence online] to every live connection, the new one last. *)
Theorem connect_effects st sid uid now :
  let st' := fst (run (on_connect sid uid now) st) in
  JSMap.get uid (userSockets st') = Some sid /\
  (forall u, u <> uid -> JSMap.get u (userSockets st') = JSMap.get u (userSockets st)) /\
  isUserOnline st' uid = true /\
  channelUsers st' = channelUsers st /\ dmUsers st' = dmUsers st /\
  activeCalls st' = activeCalls st /\
  db_users (db st') =
    map (fun u => if String.eqb (u_id u) uid then mkUserRow (u_id u) true now else u)
        (db_users (db st)) /\
  db_channelMembers (db st') = db_channelMembers (db st) /\
  db_dmMembers (db st') = db_dmMembers (db st) /\
  exists rest, snd (run (on_connect sid uid now) st) =
    map (fun x => mkOut x "user_presence"
                    (VObj [("userId", VStr uid); ("status", VStr "online");
                           ("lastActive", VNum now)]))
        (map s_id (sockets st) ++ [sid]) ++ rest.
Proof.
  cbv zeta. rewrite fst_run, snd_run.
  destruct (state_connect sid uid now st) as [ms E]. rewrite E; cbn [userSockets channelUsers
    dmUsers activeCalls db db_users db_channelMembers db_dmMembers].
  assert (G : JSMap.get uid (JSMap.set uid sid (userSockets st)) = Some sid) by apply get_set_same.
  split; [exact G|]. split; [intros u Hu; apply get_set_other; exact Hu|].
  split.
  { unfold isUserOnline; simpl. destruct (JSMap.has uid _) eqn:H; [reflexivity|].
    apply has_get in H; congruence. }
  do 6 (split; [reflexivity|]).
  destruct (outs_connect sid uid now st) as [rest O]. exists rest. rewrite O. f_equal.
  replace (map s_id (sockets st) ++ [sid])
    with (map s_id (sock_update sid (JSSet.add (user_room uid)) (sockets st ++ [mkSock sid uid []])))
    by (rewrite map_id_sock_update, map_app; reflexivity).
  unfold deliver. rewrite map_map. reflexivity.
Qed.

(** ** Disconnection *)

Lemma db_disconnect self uid now st :
  db (state_of (on_disconnect self uid now) st) =
  mkDB (map (fun u => if String.eqb (u_id u) uid then mkUserRow (u_id u) false now else u)
            (db_users (db st)))
       (db_channelMembers (db st)) (db_dmMembers (db st)) (db_messages (db st)).
Proof.
  unfold on_disconnect, set_online.
  repeat (rewrite ?state_of_bind, ?val_of_bind; cbv beta).
  rewrite ?state_of_modify, ?val_of_get, ?state_of_get. simpl.
  rewrite ?ro_leave_channels, ?ro_end_calls, ?val_leave_channels, ?val_end_calls.
  reflexivity.
Qed.

(** [disconnect] touches only what belongs to the leaving user: the call
    sessions that do not involve the user, the socket registrations of the
    other users, the other users' entries in every live channel and DM set
    and the other connections all survive; the user's row is set offline
    with [lastActive = now] and the membership tables and messages are
    kept. *)
Theorem disconnect_keeps_others st s now :
  let st' := fst (run (on_disconnect (s_id s) (s_user s) now) st) in
  (forall id c, In (id, c) (activeCalls st) -> involves (s_user s) c = false ->
     In (id, c) (activeCalls st')) /\
  (forall u, u <> s_user s -> JSMap.get u (userSockets st') = JSMap.get u (userSockets st)) /\
  (forall r users v, In (r, users) (channelUsers st) -> In v users -> v <> s_user s ->
     exists users', In (r, users') (channelUsers st') /\ In v users') /\
  (forall r users v, In (r, users) (dmUsers st) -> In v users -> v <> s_user s ->
     exists users', In (r, users') (dmUsers st') /\ In v users') /\
  sockets st' = filter (fun x => negb (String.eqb (s_id x) (s_id s))) (sockets st) /\
  db st' =
    mkDB (map (fun u => if String.eqb (u_id u) (s_user s) then mkUserRow (u_id u) false now
                        else u) (db_users (db st)))
         (db_channelMembers (db st)) (db_dmMembers (db st)) (db_messages (db st)).
Proof.
  cbv zeta. rewrite fst_run.
  destruct (state_disconnect st s now) as [Ec [Ed Ea]].
  pose proof (regs_disconnect (s_id s) (s_user s) now st) as R.
  unfold regs in R. inversion R as [[E1 E2 E3 E4]].
  rewrite Ec, Ed, Ea, E1, E4, db_disconnect.
  split; [|split; [|split; [|split; [|split; [|reflexivity]]]]].
  - intros id c H Hi. apply filter_In; split; [exact H|]. rewrite Hi; reflexivity.
  - intros u Hu. apply get_delete_other; exact Hu.
  - intros r users v H Hv Hne. unfold strip.
    exists (if JSSet.has (s_user s) users then JSSet.delete (s_user s) users else users).
    split; [apply (in_map (fun '(c, us) => (c, if JSSet.has (s_user s) us
                                                then JSSet.delete (s_user s) us else us)) _ _ H)|].
    destruct (JSSet.has _ _); [apply In_set_delete; auto | exact Hv].
  - intros r users v H Hv Hne. unfold strip_dms.
    exists (JSSet.delete (s_user s) users).
    split; [apply (in_map (fun '(d, us) => (d, JSSet.delete (s_user s) us)) _ _ H)|].
    apply In_set_delete; auto.
  - reflexivity.
Qed.
